(** * Weather client: validation, request construction and error mapping

    A shallow embedding of the TypeScript front end of the weather
    application ([frontend/src/lib/api.ts], [components/WeatherForm.tsx],
    [components/WeatherCard.tsx], [App.tsx]) together with a model of the retrieval pipeline (cache and
    provider adapter) that the specification describes. *)

From Stdlib Require Import ZArith NArith QArith Qround List String Ascii Lia.
From Stdlib Require Import DecimalString Lqa.
From stdpp Require Import gmap list.
Import ListNotations.

Set Warnings "-register-all".
Local Open Scope N_scope.

(** ** JavaScript strings

    A JavaScript string is a sequence of UTF-16 code units; [length] counts
    code units, as [String.prototype.length] does. *)

Module JsString.

Definition jsstring : Type := list N.

(** A literal of the source, written with ASCII characters. *)
Definition lit (s : string) : jsstring :=
  map N_of_ascii (list_ascii_of_string s).

(** ECMAScript WhiteSpace and LineTerminator code points: what
    [String.prototype.trim] strips. *)
Definition isWhiteSpace (u : N) : bool :=
  (u =? 9) || (u =? 10) || (u =? 11) || (u =? 12) || (u =? 13)
  || (u =? 32) || (u =? 160) || (u =? 5760)
  || ((8192 <=? u) && (u <=? 8202))
  || (u =? 8232) || (u =? 8233) || (u =? 8239) || (u =? 8287)
  || (u =? 12288) || (u =? 65279).

Fixpoint trimStart (s : jsstring) : jsstring :=
  match s with
  | u :: s' => if isWhiteSpace u then trimStart s' else s
  | [] => []
  end.

Definition trimEnd (s : jsstring) : jsstring := rev (trimStart (rev s)).

(** [s.trim()] *)
Definition trim (s : jsstring) : jsstring := trimEnd (trimStart s).

(** Truthiness of a string: only the empty string is falsy. *)
Definition truthy (s : jsstring) : bool :=
  match s with [] => false | _ :: _ => true end.

(** [s.length > n] *)
Definition longer_than (s : jsstring) (n : nat) : bool :=
  Nat.ltb n (length s).

Definition eqb (s t : jsstring) : bool := bool_decide (s = t).

End JsString.

Import JsString.

(** ** components/WeatherForm.tsx

    [handleSubmit] reads the values captured by the render it was created
    in ([city], [isSubmitting], the [loading] prop) and performs a sequence
    of effects: state setters and at most one call of the [onSubmit]
    callback.  The embedding returns that sequence in program order. *)

Module Form.

Inductive Effect : Type :=
| PreventDefault
| SetInputError (e : option jsstring)
| SetIsSubmitting (b : bool)
| OnSubmit (city : jsstring).

Definition msg_enter_city : jsstring := lit "Please enter a city name".
Definition msg_too_long : jsstring := lit "City name cannot exceed 100 characters".

(** Cities handed to [onSubmit] by a run of the handler. *)
Fixpoint submitted (es : list Effect) : list jsstring :=
  match es with
  | [] => []
  | OnSubmit c :: es' => c :: submitted es'
  | _ :: es' => submitted es'
  end.

(** The value of [inputError] after the effects, starting from [e0]. *)
Fixpoint inputErrorAfter (e0 : option jsstring) (es : list Effect) : option jsstring :=
  match es with
  | [] => e0
  | SetInputError e :: es' => inputErrorAfter e es'
  | _ :: es' => inputErrorAfter e0 es'
  end.

(** The input error that a run of the handler leaves set, if any. *)
Definition rejection (es : list Effect) : option jsstring :=
  inputErrorAfter None es.

(** The inputs the validation turns down: empty once trimmed, or longer
    than 100 code units once trimmed. *)
Definition invalid_input (c : jsstring) : bool :=
  negb (truthy (trim c)) || longer_than (trim c) 100.

(** What either version of the handler does with an input the validation
    turns down, once past the guard. *)
Definition rejecting_effects (c : jsstring) : list Effect :=
  [PreventDefault; SetInputError None;
   SetInputError (Some (if truthy (trim c) then msg_too_long else msg_enter_city))].

(** [a || b] on two nullable strings: [a] unless it is [null] or empty. *)
Definition or_null (a b : option jsstring) : option jsstring :=
  match a with
  | Some s => if truthy s then a else b
  | None => b
  end.

(** Truthiness of a nullable string. *)
Definition shown (m : option jsstring) : bool :=
  match m with Some s => truthy s | None => false end.

(** The effects a run performs before it calls [onSubmit]. *)
Fixpoint before_callback (es : list Effect) : list Effect :=
  match es with
  | [] => []
  | OnSubmit _ :: _ => []
  | e :: es' => e :: before_callback es'
  end.

End Form.

(** The first version of the component: no submission guard. *)
Module WeatherFormV1.
Import Form.

Record State : Type := { city : jsstring; inputError : option jsstring }.

Definition handleSubmit (st : State) : list Effect :=
  PreventDefault ::
  SetInputError None ::
  let trimmedCity := trim (city st) in
  if negb (truthy trimmedCity) then
    [SetInputError (Some msg_enter_city)]
  else if longer_than trimmedCity 100 then
    [SetInputError (Some msg_too_long)]
  else
    [OnSubmit trimmedCity].

End WeatherFormV1.

(** The later version: a double-submission guard in front of the
    validation, and [isSubmitting] held around the callback. *)
Module WeatherForm.
Import Form.

Record Props : Type := { loading : bool; error : option jsstring }.

Record State : Type :=
  { city : jsstring; inputError : option jsstring; isSubmitting : bool }.

Definition handleSubmit (props : Props) (st : State) : list Effect :=
  PreventDefault ::
  if isSubmitting st || loading props then
    []
  else
    SetInputError None ::
    let trimmedCity := trim (city st) in
    if negb (truthy trimmedCity) then
      [SetInputError (Some msg_enter_city)]
    else if longer_than trimmedCity 100 then
      [SetInputError (Some msg_too_long)]
    else
      (* try { await onSubmit(trimmedCity) } finally { ... } *)
      [SetIsSubmitting true; OnSubmit trimmedCity; SetIsSubmitting false].

(** The component state once an effect has been applied. *)
Definition apply (st : State) (e : Effect) : State :=
  match e with
  | SetInputError v =>
      {| city := city st; inputError := v; isSubmitting := isSubmitting st |}
  | SetIsSubmitting b =>
      {| city := city st; inputError := inputError st; isSubmitting := b |}
  | PreventDefault | OnSubmit _ => st
  end.

Definition run (st : State) (es : list Effect) : State := fold_left apply es st.

(** [handleInputChange], on the value of the change event. *)
Definition handleInputChange (st : State) (value : jsstring) : State :=
  let st' :=
    {| city := value; inputError := inputError st;
       isSubmitting := isSubmitting st |} in
  if shown (inputError st) && truthy (trim value) then
    {| city := city st'; inputError := None; isSubmitting := isSubmitting st' |}
  else st'.

(** [disabled] of the submit button and of the input field. *)
Definition submitDisabled (props : Props) (st : State) : bool :=
  loading props || isSubmitting st || negb (truthy (trim (city st))).


(** The text of the [role="alert"] element, when it is rendered. *)
Definition alert (props : Props) (st : State) : option jsstring :=
  if shown (or_null (inputError st) (error props)) then
    or_null (inputError st) (error props)
  else None.

(** Whether the input carries the [input-error] class. *)
Definition inputErrorClass (props : Props) (st : State) : bool :=
  shown (or_null (inputError st) (error props)).

End WeatherForm.

(** ** lib/api.ts *)

Module Api.

(** Values of type [any] or [unknown]. *)
Inductive JsValue : Type :=
| JsUndefined
| JsNull
| JsBoolean (b : bool)
| JsNumber (q : Q)
| JsStr (s : jsstring)
| JsArray (items : list JsValue)
| JsObject (fields : list (jsstring * JsValue)).

(** [Record<string, any>] *)
Definition Details : Type := list (jsstring * JsValue).

(** [interface CityWeather]; a [number] is read as the rational it
    denotes. *)
Module CityWeather.
Record t : Type :=
  { city : jsstring;
    temperature : Q;
    humidity : Q;
    wind_speed : Q;
    condition : jsstring;
    fetched_at : jsstring;
    provider : jsstring }.
End CityWeather.

(** The data-model invariants on the numeric and text fields of a
    record: humidity within 0..100, wind speed not negative, condition
    not empty. *)
Definition invariants_hold (w : CityWeather.t) : bool :=
  Qle_bool 0 (CityWeather.humidity w)
  && Qle_bool (CityWeather.humidity w) 100
  && Qle_bool 0 (CityWeather.wind_speed w)
  && truthy (CityWeather.condition w).

(** [interface ErrorResponse], as it is read off a response body by the
    cast [error.response.data as ErrorResponse]: each field at its declared
    type, and [None] ([undefined]) when the body does not carry it.  A body
    that is not an error object at all, such as the text of a proxy's error
    page, is the record without any field. *)
Module ErrorResponse.
Record t : Type :=
  { code : option jsstring;
    message : option jsstring;
    details : option Details }.
End ErrorResponse.

(** [AxiosResponse<D>], reduced to the fields the client reads. *)
Module AxiosResponse.
Record t (D : Type) : Type := { data : D; status : Z }.
Arguments data {D} _.
Arguments status {D} _.
End AxiosResponse.

(** The response attached to an [AxiosError].  [data] is [None] when the
    body is falsy ([null], [undefined], the empty string). *)
Definition ErrorBody : Type := AxiosResponse.t (option ErrorResponse.t).

Module AxiosError.
Record t : Type :=
  { message : jsstring;
    code : option jsstring;
    response : option ErrorBody }.
End AxiosError.

(** [class WeatherAPIError extends Error] *)
Module WeatherAPIError.
Record t : Type :=
  { name : jsstring;
    message : jsstring;
    code : jsstring;
    statusCode : Z;
    details : Details }.

(** The constructor; [details] defaults to [{}] when [undefined]. *)
Definition new (message code : jsstring) (statusCode : Z)
    (details : option Details) : t :=
  {| name := lit "WeatherAPIError";
     message := message;
     code := code;
     statusCode := statusCode;
     details := match details with Some d => d | None => [] end |}.
End WeatherAPIError.

(** What a promise can reject with, and [catch (error)] can bind. *)
Inductive Exn : Type :=
| AxiosErr (e : AxiosError.t)
| WeatherErr (e : WeatherAPIError.t)
| PlainError (message : jsstring)
| Thrown (v : JsValue).

(** [axios.isAxiosError] *)
Definition isAxiosError (error : Exn) : bool :=
  match error with AxiosErr _ => true | _ => false end.

(** A settled promise. *)
Inductive Settled (A : Type) : Type :=
| Fulfilled (a : A)
| Rejected (error : Exn).
Arguments Fulfilled {A} _.
Arguments Rejected {A} _.

(** The [params] object and the request handed to [api.get]. *)
Record Params : Type := { city : jsstring }.
Record Request : Type := { url : jsstring; params : Params }.

(** Configuration of the axios instance. *)
Definition baseURL : jsstring := lit "/api".
Definition timeout : Z := 10000.

(** [a || b] on an optional string: [a] unless it is [undefined] or
    empty. *)
Definition or_else (a : option jsstring) (b : jsstring) : jsstring :=
  match a with
  | Some s => if truthy s then s else b
  | None => b
  end.

(** [error.code === c] *)
Definition code_is (error : AxiosError.t) (c : jsstring) : bool :=
  match AxiosError.code error with
  | Some c' => JsString.eqb c' c
  | None => false
  end.

Section getWeather.

(** The payload type of [api.get<T>]. *)
Context {T : Type}.

(** The axios instance: how a request settles. *)
Variable api_get : Request -> Settled (AxiosResponse.t T).

(** The mapping of the [catch] block. *)
Definition on_rejected (error : Exn) : Exn :=
  match error with
  | AxiosErr e =>
      match AxiosError.response e with
      | Some {| AxiosResponse.data := Some errorData;
                AxiosResponse.status := status |} =>
          WeatherErr (WeatherAPIError.new
            (or_else (ErrorResponse.message errorData)
                     (lit "Failed to fetch weather data"))
            (or_else (ErrorResponse.code errorData) (lit "UNKNOWN_ERROR"))
            status
            (ErrorResponse.details errorData))
      | _ =>
          if code_is e (lit "ECONNABORTED") then
            WeatherErr (WeatherAPIError.new
              (lit "Request timed out. Please try again.")
              (lit "TIMEOUT") 408 None)
          else
            match AxiosError.response e with
            | None =>
                WeatherErr (WeatherAPIError.new
                  (lit "Unable to connect to weather service. Please check your internet connection.")
                  (lit "NETWORK_ERROR") 0 None)
            | Some response =>
                WeatherErr (WeatherAPIError.new
                  (lit "Failed to fetch weather data")
                  (lit "UNKNOWN_ERROR")
                  (AxiosResponse.status response) None)
            end
      end
  | _ => error
  end.

(** [getWeather]: the settled result together with the requests that
    were issued, in order. *)
Definition getWeather (city : jsstring) : Settled T * list Request :=
  let request :=
    {| url := lit "/weather"; params := {| city := trim city |} |} in
  (match api_get request with
   | Fulfilled response => Fulfilled (AxiosResponse.data response)
   | Rejected error => Rejected (on_rejected error)
   end,
   [request]).

End getWeather.

(** The request [getWeather] builds for a city. *)
Definition weather_request (c : jsstring) : Request :=
  {| url := lit "/weather"; params := {| city := trim c |} |}.

(** [error instanceof WeatherAPIError] *)
Definition isWeatherAPIError (error : Exn) : bool :=
  match error with WeatherErr _ => true | _ => false end.

Definition getErrorMessage (error : Exn) : jsstring :=
  match error with
  | WeatherErr e =>
      let code := WeatherAPIError.code e in
      if JsString.eqb code (lit "UNKNOWN_CITY") then
        lit "City not found. Please check the spelling and try again."
      else if JsString.eqb code (lit "TIMEOUT") then
        lit "Request timed out. Please try again."
      else if JsString.eqb code (lit "NETWORK_ERROR") then
        lit "Unable to connect. Please check your internet connection."
      else if JsString.eqb code (lit "BAD_REQUEST") then
        or_else (Some (WeatherAPIError.message e))
                (lit "Invalid request. Please check your input.")
      else
        or_else (Some (WeatherAPIError.message e))
                (lit "An unexpected error occurred.")
  | _ => lit "An unexpected error occurred. Please try again."
  end.

End Api.

(** ** App.tsx *)

Module App.
Import Api.

Inductive Effect : Type :=
| SetLoading (b : bool)
| SetError (e : option jsstring)
| SetWeather (w : option CityWeather.t)
| ConsoleError (err : Exn).

Section handleWeatherSearch.

(** The body of a successful response, which [getWeather] hands over
    unchecked: a weather record, or [None] for a falsy body ([null],
    [undefined], the empty string of an empty response), as on the error
    path. *)
Variable api_get : Request -> Settled (AxiosResponse.t (option CityWeather.t)).

(** The [onSubmit] callback of the form: its effects on the component
    state and the requests it issued. *)
Definition handleWeatherSearch (city : jsstring)
    : list Effect * list Request :=
  let '(result, sent) := getWeather api_get city in
  (SetLoading true :: SetError None ::
   match result with
   | Fulfilled weatherData => [SetWeather weatherData]
   | Rejected err =>
       [ConsoleError err; SetError (Some (getErrorMessage err));
        SetWeather None]
   end ++ [SetLoading false],
   sent).

(** Requests issued by the callbacks that a run of a form handler
    made. *)
Definition requests_of (es : list Form.Effect) : list Request :=
  flat_map (fun c => snd (handleWeatherSearch c)) (Form.submitted es).

End handleWeatherSearch.

(** The component state.  [weather] is [None] when it holds [null] or a
    falsy fetched body, the values the render conditions treat alike. *)
Record State : Type :=
  { weather : option CityWeather.t;
    loading : bool;
    error : option jsstring }.

Definition apply (st : State) (e : Effect) : State :=
  match e with
  | SetLoading b => {| weather := weather st; loading := b; error := error st |}
  | SetError m => {| weather := weather st; loading := loading st; error := m |}
  | SetWeather w => {| weather := w; loading := loading st; error := error st |}
  | ConsoleError _ => st
  end.

Definition run (st : State) (es : list Effect) : State := fold_left apply es st.

(** [weather && !loading]: the weather card is rendered; [weather] is
    truthy exactly when it holds a record. *)
Definition showCard (st : State) : bool :=
  match weather st with Some _ => negb (loading st) | None => false end.

(** [!weather && !loading && !error]: the welcome panel is rendered;
    [weather] is falsy when it is [null] or a falsy fetched body. *)
Definition showWelcome (st : State) : bool :=
  match weather st with
  | Some _ => false
  | None => negb (loading st) && negb (Form.shown (error st))
  end.

(** The props handed to the form. *)
Definition formProps (st : State) : WeatherForm.Props :=
  {| WeatherForm.loading := loading st; WeatherForm.error := error st |}.

End App.

(** ** The retrieval pipeline behind [GET /api/weather]

    The back end ([backend/app/application/use_cases.py],
    [infrastructure/cache.py], [infrastructure/weather_client.py]) is the
    part of the repository that caches; the definitions below follow the
    specification's description of it. *)

Module Retrieval.

Local Open Scope Z_scope.

(** Instants and durations, in seconds. *)
Definition Time : Type := Z.

(** Modelled from the spec: the closed error taxonomy of section 7 (the
    domain errors module is missing). *)
Inductive ErrorKind : Type :=
| InvalidInput
| UnknownCity
| BadRequest
| Timeout
| NetworkUnavailable
| UpstreamUnavailable
| InternalProviderError.

(** Modelled from the spec: the Normalized Weather Record of section 3
    (the domain entities module is missing); [fetched_at] is the instant
    the value was produced. *)
Record WeatherRecord : Type :=
  { city : jsstring;
    temperature : Q;
    humidity : Z;
    wind_speed : Q;
    condition : jsstring;
    fetched_at : Time;
    provider : jsstring }.

(** Modelled from the spec: a cache entry of section 3 (the cache module
    is missing): the record and its insertion timestamp. *)
Record Entry : Type := { record : WeatherRecord; inserted_at : Time }.

(** Modelled from the spec: the provider's well-formed success payload,
    in which a required field may be structurally missing (section 4.2;
    the provider client is missing). *)
Record Payload : Type :=
  { p_city : option jsstring;
    p_temperature : option Q;
    p_humidity : option Z;
    p_wind_speed : option Q;
    p_condition : option jsstring }.

(** Modelled from the spec: the conditions the provider adapter observes,
    one per row of the table of section 4.2 (the provider client is
    missing). *)
Inductive Observed : Type :=
| TransportTimeout
| ConnectionFailure
| CityNotRecognized
| MalformedRequest
| OutageOrRateLimit
| Unclassified5xx
| SuccessPayload (p : Payload).

Definition provider_literal : jsstring := lit "weatherapi".

(** Modelled from the spec: parsing a success payload (section 4.2, last
    row of the table; the provider client is missing).  No record is
    constructed unless every required field is there; [fetched_at] is
    set at fetch time. *)
Definition parse (now : Time) (p : Payload) : option WeatherRecord :=
  match p_city p, p_temperature p, p_humidity p, p_wind_speed p, p_condition p with
  | Some c, Some t, Some h, Some w, Some d =>
      Some {| city := c; temperature := t; humidity := h; wind_speed := w;
              condition := d; fetched_at := now; provider := provider_literal |}
  | _, _, _, _, _ => None
  end.

(** Modelled from the spec: the mapping table of the provider adapter
    (section 4.2; the provider client is missing). *)
Definition classify (now : Time) (o : Observed) : ErrorKind + WeatherRecord :=
  match o with
  | TransportTimeout => inl Timeout
  | ConnectionFailure => inl NetworkUnavailable
  | CityNotRecognized => inl UnknownCity
  | MalformedRequest => inl BadRequest
  | OutageOrRateLimit => inl UpstreamUnavailable
  | Unclassified5xx => inl InternalProviderError
  | SuccessPayload p =>
      match parse now p with
      | Some r => inr r
      | None => inl InternalProviderError
      end
  end.

(** Modelled from the spec: the state the use case works on (sections
    4.1 and 4.3; the cache module is missing): the cache, and a log of
    the outbound provider calls made so far. *)
Record State : Type :=
  { cache : gmap jsstring Entry;
    calls : list jsstring }.

Section UseCase.

(** Configuration: the cache lifetime. *)
Variable ttl : Time.

(** The case folding used by the key derivation rule. *)
Variable casefold : jsstring -> jsstring.

(** The external provider: what one outbound call for a city observes
    at a given instant. *)
Variable provider_call : jsstring -> Time -> Observed.

(** Modelled from the spec: [Cache.get] (section 4.3; the cache module
    is missing): an entry older than the TTL is treated as absent and
    is not deleted. *)
Definition cache_get (now : Time) (key : jsstring)
    (c : gmap jsstring Entry) : option WeatherRecord :=
  match c !! key with
  | Some e => if ttl <? now - inserted_at e then None else Some (record e)
  | None => None
  end.

(** Modelled from the spec: [Cache.put] (section 4.3; the cache module
    is missing): last write wins. *)
Definition cache_put (now : Time) (key : jsstring) (r : WeatherRecord)
    (c : gmap jsstring Entry) : gmap jsstring Entry :=
  <[key := {| record := r; inserted_at := now |}]> c.

(** Modelled from the spec: the normalized cache key (section 3; the
    use-case module is missing): the trimmed input, case-folded. *)
Definition cache_key (trimmed : jsstring) : jsstring := casefold trimmed.

(** Modelled from the spec: step 1 of section 4.1 (the use-case module
    is missing). *)
Definition valid (cityInput : jsstring) : bool :=
  truthy (trim cityInput) && negb (longer_than (trim cityInput) 100).

(** Modelled from the spec: [ProviderAdapter.fetch] (section 4.2; the
    provider client is missing): one outbound call, classified. *)
Definition fetch (city : jsstring) (now : Time) : ErrorKind + WeatherRecord :=
  classify now (provider_call city now).

(** Modelled from the spec: the Retrieval Use Case, steps 1 to 5 of
    section 4.1 (the use-case module is missing). *)
Definition getWeather (cityInput : jsstring) (now : Time) (st : State)
    : (ErrorKind + WeatherRecord) * State :=
  let trimmed := trim cityInput in
  if negb (valid cityInput) then (inl InvalidInput, st)
  else
    let key := cache_key trimmed in
    match cache_get now key (cache st) with
    | Some r => (inr r, st)
    | None =>
        let st' := {| cache := cache st; calls := calls st ++ [trimmed] |} in
        match fetch trimmed now with
        | inr r =>
            (inr r, {| cache := cache_put now key r (cache st');
                       calls := calls st' |})
        | inl e => (inl e, st')
        end
    end.

End UseCase.

(** A case folding for ASCII letters. *)
Definition ascii_casefold (s : jsstring) : jsstring :=
  map (fun u => if (65 <=? u)%N && (u <=? 90)%N then (u + 32)%N else u) s.

End Retrieval.

(** ** components/WeatherCard.tsx

    A [number] is the rational that a finite double denotes; [Math.round]
    and [toFixed] are exact functions of that value. *)

Module WeatherCard.

Local Open Scope N_scope.

(** [s.startsWith(p)] and [s.includes(kw)] *)
Fixpoint startsWith (s p : jsstring) {struct p} : bool :=
  match p, s with
  | [], _ => true
  | _ :: _, [] => false
  | a :: p', b :: s' => (a =? b) && startsWith s' p'
  end.

Fixpoint includes (s kw : jsstring) : bool :=
  startsWith s kw ||
  match s with
  | [] => false
  | _ :: s' => includes s' kw
  end.

(** The icons, as the code units of the literals. *)
Definition icon_sun : jsstring := [9728; 65039].
Definition icon_cloud : jsstring := [9729; 65039].
Definition icon_rain : jsstring := [55356; 57127; 65039].
Definition icon_snow : jsstring := [10052; 65039].
Definition icon_thunder : jsstring := [9928; 65039].
Definition icon_fog : jsstring := [55356; 57131; 65039].
Definition icon_default : jsstring := [55356; 57124; 65039].

Section getWeatherIcon.

(** [String.prototype.toLowerCase], as the engine provides it. *)
Variable toLowerCase : jsstring -> jsstring.

Definition getWeatherIcon (condition : jsstring) : jsstring :=
  let lowerCondition := toLowerCase condition in
  if includes lowerCondition (lit "sunny") || includes lowerCondition (lit "clear") then
    icon_sun
  else if includes lowerCondition (lit "cloud") then
    icon_cloud
  else if includes lowerCondition (lit "rain") || includes lowerCondition (lit "drizzle") then
    icon_rain
  else if includes lowerCondition (lit "snow") then
    icon_snow
  else if includes lowerCondition (lit "thunder") || includes lowerCondition (lit "storm") then
    icon_thunder
  else if includes lowerCondition (lit "fog") || includes lowerCondition (lit "mist") then
    icon_fog
  else
    icon_default.

End getWeatherIcon.

(** [toLowerCase] on strings of ASCII code units. *)
Definition toLowerCase_ascii (s : jsstring) : jsstring :=
  map (fun u => if (65 <=? u) && (u <=? 90) then u + 32 else u) s.

(** The decimal digits of an integer, with a minus sign when negative. *)
Definition decimal_digits (n : Z) : jsstring :=
  lit (NilZero.string_of_int (Z.to_int n)).

(** The string of an integral [number], as a template literal prints it.
    Below 2^53 in magnitude every integer is a double of its own and its
    string is its decimal expansion; beyond, the shortest digits that
    round-trip and, from 10^21 on, the exponent form are printed, which
    this embedding does not follow: [None]. *)
Definition Number_toString (n : Z) : option jsstring :=
  if (Z.abs n <? 2 ^ 53)%Z then Some (decimal_digits n) else None.

(** [Math.round]: the nearest integer, a tie going upwards. *)
Definition Math_round (x : Q) : Z := Qfloor (x + (1 # 2)).

(** [formatTemperature]; [None] where [Number_toString] is. *)
Definition formatTemperature (temp : Q) : option jsstring :=
  match Number_toString (Math_round temp) with
  | Some digits => Some (digits ++ [176; 67])
  | None => None
  end.

(** [x.toFixed(1)] for a magnitude below 10^21: the integer [n] with
    [n / 10] nearest to the magnitude of [x], the larger one on a tie,
    written in full with a point before its last digit, after the sign.
    From 10^21 on [toFixed] prints the number's own string, in exponent
    form, which this embedding does not follow: [None]. *)
Definition toFixed1 (x : Q) : option jsstring :=
  let negative := negb (Qle_bool 0 x) in
  let magnitude := if negative then Qopp x else x in
  if Qle_bool (inject_Z (10 ^ 21)) magnitude then None
  else
    let n := Qfloor (magnitude * 10 + (1 # 2)) in
    Some ((if negative then lit "-" else []) ++
          decimal_digits (n / 10)%Z ++ lit "." ++ decimal_digits (n mod 10)%Z).

(** [formatWindSpeed]; [None] where [toFixed1] is. *)
Definition formatWindSpeed (speed : Q) : option jsstring :=
  match toFixed1 speed with
  | Some digits => Some (digits ++ lit " km/h")
  | None => None
  end.

End WeatherCard.

(** * Properties *)

(** ** Trimming *)

Section Trim.

Lemma trimStart_length (s : jsstring) :
  (length (trimStart s) <= length s)%nat.
Proof.
  induction s as [|u s IH]; simpl; [lia|].
  destruct (isWhiteSpace u); simpl; lia.
Qed.

Lemma trimEnd_length (s : jsstring) :
  (length (trimEnd s) <= length s)%nat.
Proof.
  unfold trimEnd. rewrite length_rev.
  pose proof (trimStart_length (rev s)) as H.
  rewrite length_rev in H. exact H.
Qed.

Lemma trim_length (s : jsstring) : (length (trim s) <= length s)%nat.
Proof.
  unfold trim.
  pose proof (trimEnd_length (trimStart s)).
  pose proof (trimStart_length s). lia.
Qed.

Lemma trimStart_idem (s : jsstring) : trimStart (trimStart s) = trimStart s.
Proof.
  induction s as [|u s IH]; simpl; [reflexivity|].
  destruct (isWhiteSpace u) eqn:E; [exact IH|].
  simpl. rewrite E. reflexivity.
Qed.

(** A string that ends in a non-blank keeps it under [trimStart]. *)
Lemma trimStart_snoc (s : jsstring) (u : N) :
  isWhiteSpace u = false -> trimStart (s ++ [u]) = trimStart s ++ [u].
Proof.
  intros Hu. induction s as [|v s IH]; simpl.
  - rewrite Hu. reflexivity.
  - destruct (isWhiteSpace v); [exact IH | reflexivity].
Qed.

Lemma trimEnd_cons (u : N) (s : jsstring) :
  isWhiteSpace u = false -> trimEnd (u :: s) = u :: trimEnd s.
Proof.
  intros Hu. unfold trimEnd. simpl rev at 2.
  rewrite trimStart_snoc by exact Hu.
  rewrite rev_app_distr. reflexivity.
Qed.

Lemma trimEnd_idem (s : jsstring) : trimEnd (trimEnd s) = trimEnd s.
Proof.
  unfold trimEnd. rewrite rev_involutive, trimStart_idem. reflexivity.
Qed.

(** The head of a trimmed string is never blank. *)
Lemma trimStart_trim (s : jsstring) : trimStart (trim s) = trim s.
Proof.
  unfold trim.
  induction s as [|u s IH]; [reflexivity|].
  simpl trimStart at 2 3.
  destruct (isWhiteSpace u) eqn:E; [exact IH|].
  rewrite trimEnd_cons by exact E. simpl. rewrite E. reflexivity.
Qed.

Lemma trim_idem (s : jsstring) : trim (trim s) = trim s.
Proof.
  unfold trim at 1. rewrite trimStart_trim.
  unfold trim. apply trimEnd_idem.
Qed.

(** A string with no blank at either end is its own trimmed form. *)
Lemma trim_fixed (u v : N) (s : jsstring) :
  isWhiteSpace u = false -> isWhiteSpace v = false ->
  trim (u :: s ++ [v]) = u :: s ++ [v].
Proof.
  intros Hu Hv. unfold trim. simpl. rewrite Hu.
  unfold trimEnd.
  change (u :: s ++ [v]) with ((u :: s) ++ [v]).
  rewrite rev_app_distr. simpl rev at 1. simpl app at 1.
  simpl trimStart. rewrite Hv. simpl.
  rewrite rev_app_distr, rev_involutive. reflexivity.
Qed.

(** In particular a string of 101 code units with no blank at either end. *)
Lemma trim_unpadded_101 (u v : N) (s : jsstring) :
  isWhiteSpace u = false -> isWhiteSpace v = false -> length s = 99%nat ->
  length (trim (u :: s ++ [v])) = 101%nat.
Proof.
  intros Hu Hv Hs. rewrite (trim_fixed u v s Hu Hv).
  simpl. rewrite length_app, Hs. reflexivity.
Qed.

End Trim.

Section Blank.

Lemma trimStart_nil_iff (s : jsstring) :
  trimStart s = [] <-> forallb isWhiteSpace s = true.
Proof.
  induction s as [|u s IH]; simpl; [tauto|].
  destruct (isWhiteSpace u); simpl; [exact IH|].
  split; discriminate.
Qed.

Lemma trimStart_head (s t : jsstring) (u : N) :
  trimStart s = u :: t -> isWhiteSpace u = false.
Proof.
  induction s as [|v s IH]; simpl; [discriminate|].
  destruct (isWhiteSpace v) eqn:E; [exact IH|].
  intros H. injection H as -> _. exact E.
Qed.

(** A string trims to the empty string exactly when it is blank. *)
Lemma trim_blank (s : jsstring) :
  truthy (trim s) = negb (forallb isWhiteSpace s).
Proof.
  unfold trim. destruct (trimStart s) as [|u t] eqn:E.
  - apply trimStart_nil_iff in E. rewrite E. reflexivity.
  - rewrite (trimEnd_cons u t (trimStart_head s t u E)). simpl.
    destruct (forallb isWhiteSpace s) eqn:F; [|reflexivity].
    apply trimStart_nil_iff in F. congruence.
Qed.

(** A trimmed string is the input without a blank prefix and a blank
    suffix. *)
Lemma trimStart_split (s : jsstring) :
  exists l, s = l ++ trimStart s /\ forallb isWhiteSpace l = true.
Proof.
  induction s as [|u s (l & Hs & Hl)]; simpl.
  - exists []. split; reflexivity.
  - destruct (isWhiteSpace u) eqn:E.
    + exists (u :: l). simpl. rewrite E, Hl. split; [congruence | reflexivity].
    + exists []. split; reflexivity.
Qed.

Lemma trim_split (s : jsstring) :
  exists l r,
    s = l ++ trim s ++ r /\
    forallb isWhiteSpace l = true /\ forallb isWhiteSpace r = true.
Proof.
  destruct (trimStart_split s) as (l & Hs & Hl).
  destruct (trimStart_split (rev (trimStart s))) as (r & Hr & Hrb).
  exists l, (rev r). split; [|split].
  - unfold trim, trimEnd. rewrite <- rev_app_distr, <- Hr, rev_involutive.
    exact Hs.
  - exact Hl.
  - rewrite forallb_forall in Hrb |- *. intros x Hx.
    apply Hrb. apply in_rev. exact Hx.
Qed.

(** A trimmed string has no blank at either end. *)
Lemma trim_head_not_blank (s t : jsstring) (u : N) :
  trim s = u :: t -> isWhiteSpace u = false.
Proof.
  intros H. apply (trimStart_head (trim s) t u).
  rewrite trimStart_trim. exact H.
Qed.

Lemma trim_last_not_blank (s t : jsstring) (u : N) :
  trim s = t ++ [u] -> isWhiteSpace u = false.
Proof.
  intros H.
  assert (Hfix : trimStart (rev (trim s)) = rev (trim s)).
  { pose proof (trimEnd_idem (trimStart s)) as Hi. fold (trim s) in Hi.
    unfold trimEnd in Hi. rewrite <- Hi at 2. rewrite rev_involutive.
    reflexivity. }
  rewrite H, rev_app_distr in Hfix. simpl in Hfix.
  destruct (isWhiteSpace u) eqn:E; [|reflexivity].
  exfalso. pose proof (trimStart_length (rev t)) as Hl.
  rewrite Hfix in Hl. simpl in Hl. lia.
Qed.

Lemma trimStart_blank_app (l s : jsstring) :
  forallb isWhiteSpace l = true -> trimStart (l ++ s) = trimStart s.
Proof.
  induction l as [|u l IH]; simpl; [reflexivity|].
  destruct (isWhiteSpace u); simpl; [exact IH | discriminate].
Qed.

Lemma forallb_rev (f : N -> bool) (l : jsstring) :
  forallb f l = true -> forallb f (rev l) = true.
Proof.
  rewrite !forallb_forall. intros H x Hx. apply H. apply in_rev. exact Hx.
Qed.

(** The split into blanks, a middle without a blank at either end, and
    blanks determines the middle: it is the trimmed string. *)
Lemma trim_unique (l t r : jsstring) :
  forallb isWhiteSpace l = true ->
  forallb isWhiteSpace r = true ->
  (forall u t', t = u :: t' -> isWhiteSpace u = false) ->
  (forall u t', t = t' ++ [u] -> isWhiteSpace u = false) ->
  trim (l ++ t ++ r) = t.
Proof.
  intros Hl Hr Hhead Hlast. unfold trim.
  rewrite (trimStart_blank_app l _ Hl).
  destruct t as [|u t'].
  - simpl. apply trimStart_nil_iff in Hr. rewrite Hr. reflexivity.
  - simpl. rewrite (Hhead u t' eq_refl).
    unfold trimEnd. change (u :: t' ++ r) with ((u :: t') ++ r).
    rewrite rev_app_distr, (trimStart_blank_app _ _ (forallb_rev _ _ Hr)).
    destruct (rev (u :: t')) as [|v w] eqn:E.
    + apply (f_equal (@length N)) in E. rewrite length_rev in E. discriminate E.
    + assert (Hv : u :: t' = rev w ++ [v]).
      { rewrite <- (rev_involutive (u :: t')), E. reflexivity. }
      simpl. rewrite (Hlast v (rev w) Hv). simpl. symmetry. exact Hv.
Qed.

End Blank.

(** ** The submit handler *)

Section Submit.
Import Form.

Lemma getWeather_sent {T : Type}
    (api_get : Api.Request -> Api.Settled (Api.AxiosResponse.t T))
    (c : jsstring) :
  snd (Api.getWeather api_get c) = [Api.weather_request c].
Proof. reflexivity. Qed.

Lemma handleWeatherSearch_sent api_get (c : jsstring) :
  snd (App.handleWeatherSearch api_get c) = [Api.weather_request c].
Proof.
  unfold App.handleWeatherSearch.
  destruct (Api.getWeather api_get c) as [result sent] eqn:E.
  pose proof (getWeather_sent api_get c) as H. rewrite E in H.
  simpl in *. exact H.
Qed.

Lemma requests_of_submitted api_get (es : list Effect) :
  App.requests_of api_get es = map Api.weather_request (submitted es).
Proof.
  unfold App.requests_of.
  induction (submitted es) as [|c cs IH]; [reflexivity|].
  cbn [flat_map map]. rewrite handleWeatherSearch_sent, IH. reflexivity.
Qed.

Lemma invalid_input_cases (c : jsstring) :
  invalid_input c = true ->
  truthy (trim c) = false \/
  (truthy (trim c) = true /\ longer_than (trim c) 100 = true).
Proof.
  unfold invalid_input. destruct (truthy (trim c)); simpl; auto.
Qed.

Lemma handleSubmit_v1_invalid (c : jsstring) (e0 : option jsstring) :
  invalid_input c = true ->
  WeatherFormV1.handleSubmit
    {| WeatherFormV1.city := c; WeatherFormV1.inputError := e0 |}
  = rejecting_effects c.
Proof.
  intros H. unfold WeatherFormV1.handleSubmit, rejecting_effects. simpl.
  destruct (invalid_input_cases c H) as [E | [E L]]; rewrite E; simpl.
  - reflexivity.
  - rewrite L. reflexivity.
Qed.

Lemma handleSubmit_invalid (c : jsstring) props (e0 : option jsstring) :
  invalid_input c = true ->
  WeatherForm.loading props = false ->
  WeatherForm.handleSubmit props
    {| WeatherForm.city := c; WeatherForm.inputError := e0;
       WeatherForm.isSubmitting := false |}
  = rejecting_effects c.
Proof.
  intros H Hl. unfold WeatherForm.handleSubmit, rejecting_effects. simpl.
  rewrite Hl. simpl.
  destruct (invalid_input_cases c H) as [E | [E L]]; rewrite E; simpl.
  - reflexivity.
  - rewrite L. reflexivity.
Qed.

Lemma handleSubmit_guarded props st :
  WeatherForm.isSubmitting st || WeatherForm.loading props = true ->
  WeatherForm.handleSubmit props st = [PreventDefault].
Proof.
  intros H. unfold WeatherForm.handleSubmit. rewrite H. reflexivity.
Qed.

End Submit.

(** C1, as stated, fails on the later version of the form: while a
    submission is in flight (here [loading] is set) the guard returns
    before the validation, so the empty input is dropped without any input
    error being set. *)
Lemma C1_guard_counterexample :
  let props := {| WeatherForm.loading := true; WeatherForm.error := None |} in
  let st := {| WeatherForm.city := lit ""; WeatherForm.inputError := None;
               WeatherForm.isSubmitting := false |} in
  Form.invalid_input (WeatherForm.city st) = true /\
  WeatherForm.handleSubmit props st = [Form.PreventDefault] /\
  Form.rejection (WeatherForm.handleSubmit props st) = None.
Proof. repeat split. Qed.

(** C1 (amended): for every city input whose trimmed form is empty or
    longer than 100 characters, no run of the submit handler calls
    [onSubmit], so no request is issued for that input; and unless the run
    is dropped by the double-submission guard of the later version, it sets
    the input error: "Please enter a city name" for an empty trimmed form,
    "City name cannot exceed 100 characters" for a long one. *)
Theorem C1_invalid_input_never_submitted (c : jsstring) :
  Form.invalid_input c = true ->
  (forall e0,
     let es := WeatherFormV1.handleSubmit
                 {| WeatherFormV1.city := c; WeatherFormV1.inputError := e0 |} in
     Form.submitted es = [] /\
     (forall api_get, App.requests_of api_get es = []) /\
     Form.rejection es =
       Some (if truthy (trim c) then Form.msg_too_long else Form.msg_enter_city))
  /\
  (forall props e0 sub,
     let es := WeatherForm.handleSubmit props
                 {| WeatherForm.city := c; WeatherForm.inputError := e0;
                    WeatherForm.isSubmitting := sub |} in
     Form.submitted es = [] /\
     (forall api_get, App.requests_of api_get es = []) /\
     (sub || WeatherForm.loading props = false ->
      Form.rejection es =
        Some (if truthy (trim c) then Form.msg_too_long else Form.msg_enter_city))).
Proof.
  intros H. split.
  - intros e0 es. subst es. rewrite (handleSubmit_v1_invalid c e0 H).
    repeat split.
  - intros props e0 sub es. subst es.
    destruct (sub || WeatherForm.loading props) eqn:G.
    + rewrite handleSubmit_guarded by exact G.
      repeat split. discriminate.
    + apply orb_false_elim in G as [-> Hl].
      rewrite (handleSubmit_invalid c props e0 H Hl).
      repeat split.
Qed.

Lemma C1_witness_blank :
  Form.invalid_input (lit "   ") = true /\
  Form.rejection
    (WeatherForm.handleSubmit
       {| WeatherForm.loading := false; WeatherForm.error := None |}
       {| WeatherForm.city := lit "   "; WeatherForm.inputError := None;
          WeatherForm.isSubmitting := false |})
  = Some Form.msg_enter_city.
Proof.
  split; [reflexivity|].
  refine (proj2 (proj2 (proj2 (C1_invalid_input_never_submitted (lit "   ") _)
            {| WeatherForm.loading := false; WeatherForm.error := None |}
            None false)) _); reflexivity.
Defined.

(** C7, as stated, fails: the length test is made on the trimmed form.  A
    101-character input made of one space and a hundred letters passes the
    validation of both versions and is handed to [onSubmit]. *)
Lemma C7_padded_counterexample :
  let c := 32 :: repeat 97 100 in
  length c = 101%nat /\
  WeatherFormV1.handleSubmit
    {| WeatherFormV1.city := c; WeatherFormV1.inputError := None |}
  = [Form.PreventDefault; Form.SetInputError None;
     Form.OnSubmit (repeat 97 100)] /\
  WeatherForm.handleSubmit
    {| WeatherForm.loading := false; WeatherForm.error := None |}
    {| WeatherForm.city := c; WeatherForm.inputError := None;
       WeatherForm.isSubmitting := false |}
  = [Form.PreventDefault; Form.SetInputError None;
     Form.SetIsSubmitting true; Form.OnSubmit (repeat 97 100);
     Form.SetIsSubmitting false] /\
  Form.rejection
    (WeatherFormV1.handleSubmit
       {| WeatherFormV1.city := c; WeatherFormV1.inputError := None |})
  = None.
Proof. vm_compute. repeat split. Qed.

(** C7 (amended): for every input string whose trimmed form has length
    exactly 101, a run of the submit handler that is not dropped by the
    double-submission guard sets the input error "City name cannot exceed
    100 characters" and does not call [onSubmit]. *)
Theorem C7_trimmed_length_101_rejected (c : jsstring) :
  length (trim c) = 101%nat ->
  (forall e0,
     WeatherFormV1.handleSubmit
       {| WeatherFormV1.city := c; WeatherFormV1.inputError := e0 |}
     = [Form.PreventDefault; Form.SetInputError None;
        Form.SetInputError (Some Form.msg_too_long)]) /\
  (forall props e0,
     WeatherForm.loading props = false ->
     WeatherForm.handleSubmit props
       {| WeatherForm.city := c; WeatherForm.inputError := e0;
          WeatherForm.isSubmitting := false |}
     = [Form.PreventDefault; Form.SetInputError None;
        Form.SetInputError (Some Form.msg_too_long)]).
Proof.
  intros Hlen.
  assert (Ht : truthy (trim c) = true).
  { destruct (trim c); [discriminate Hlen | reflexivity]. }
  assert (Hinv : Form.invalid_input c = true).
  { unfold Form.invalid_input, longer_than. rewrite Ht, Hlen. reflexivity. }
  split.
  - intros e0. rewrite (handleSubmit_v1_invalid c e0 Hinv).
    unfold Form.rejecting_effects. rewrite Ht. reflexivity.
  - intros props e0 Hl. rewrite (handleSubmit_invalid c props e0 Hinv Hl).
    unfold Form.rejecting_effects. rewrite Ht. reflexivity.
Qed.

Lemma C7_witness_101_letters :
  length (trim (repeat 97 101)) = 101%nat /\
  WeatherFormV1.handleSubmit
    {| WeatherFormV1.city := repeat 97 101; WeatherFormV1.inputError := None |}
  = [Form.PreventDefault; Form.SetInputError None;
     Form.SetInputError (Some Form.msg_too_long)].
Proof.
  split; [vm_compute; reflexivity|].
  refine (proj1 (C7_trimmed_length_101_rejected (repeat 97 101) _) None).
  vm_compute; reflexivity.
Defined.

(** C6: the one request [getWeather] issues for an input [c] carries as
    its city parameter the input with its leading and trailing whitespace
    removed: the input is a run of whitespace, then the city sent, then a
    run of whitespace, and the city sent neither starts nor ends with a
    whitespace code unit, which determines it.  That city is [trim c]; and a
    request issued on behalf of a form submission carries the trimmed
    form of the text in the input field. *)
Theorem C6_request_carries_trimmed_city :
  (forall (T : Type)
          (api_get : Api.Request -> Api.Settled (Api.AxiosResponse.t T))
          (c : jsstring),
     exists l sent r : jsstring,
       map (fun q => Api.city (Api.params q)) (snd (Api.getWeather api_get c))
       = [sent] /\
       c = l ++ sent ++ r /\
       forallb isWhiteSpace l = true /\
       forallb isWhiteSpace r = true /\
       (forall u t, sent = u :: t -> isWhiteSpace u = false) /\
       (forall u t, sent = t ++ [u] -> isWhiteSpace u = false) /\
       (forall l' t' r',
          c = l' ++ t' ++ r' ->
          forallb isWhiteSpace l' = true ->
          forallb isWhiteSpace r' = true ->
          (forall u t, t' = u :: t -> isWhiteSpace u = false) ->
          (forall u t, t' = t ++ [u] -> isWhiteSpace u = false) ->
          t' = sent)) /\
  (forall (T : Type)
          (api_get : Api.Request -> Api.Settled (Api.AxiosResponse.t T))
          (c : jsstring),
     map (fun r => Api.city (Api.params r)) (snd (Api.getWeather api_get c))
     = [trim c]) /\
  (forall api_get props st,
     map (fun r => Api.city (Api.params r))
         (App.requests_of api_get (WeatherForm.handleSubmit props st))
     = map (fun _ => trim (WeatherForm.city st))
           (Form.submitted (WeatherForm.handleSubmit props st))) /\
  (forall api_get st,
     map (fun r => Api.city (Api.params r))
         (App.requests_of api_get (WeatherFormV1.handleSubmit st))
     = map (fun _ => trim (WeatherFormV1.city st))
           (Form.submitted (WeatherFormV1.handleSubmit st))).
Proof.
  split.
  { intros T api_get c.
    destruct (trim_split c) as (l & r & Hc & Hl & Hr).
    exists l, (trim c), r. split; [reflexivity|].
    split; [exact Hc|]. split; [exact Hl|]. split; [exact Hr|].
    split; [|split].
    - intros u t H. exact (trim_head_not_blank c t u H).
    - intros u t H. exact (trim_last_not_blank c t u H).
    - intros l' t' r' Hc' Hl' Hr' Hh Hla. rewrite Hc'.
      symmetry. apply trim_unique; assumption. }
  split; [reflexivity|]. split.
  - intros api_get props st.
    rewrite requests_of_submitted, map_map.
    unfold WeatherForm.handleSubmit.
    destruct (WeatherForm.isSubmitting st || WeatherForm.loading props);
      [reflexivity|].
    destruct (negb (truthy (trim (WeatherForm.city st)))); [reflexivity|].
    destruct (longer_than (trim (WeatherForm.city st)) 100); [reflexivity|].
    simpl. rewrite trim_idem. reflexivity.
  - intros api_get st.
    rewrite requests_of_submitted, map_map.
    unfold WeatherFormV1.handleSubmit.
    destruct (negb (truthy (trim (WeatherFormV1.city st)))); [reflexivity|].
    destruct (longer_than (trim (WeatherFormV1.city st)) 100); [reflexivity|].
    simpl. rewrite trim_idem. reflexivity.
Qed.

(** ** The API client *)

Section Client.
Import Api.

Lemma eqb_refl (s : jsstring) : JsString.eqb s s = true.
Proof. unfold JsString.eqb. apply bool_decide_eq_true_2. reflexivity. Qed.

Lemma eqb_neq (s t : jsstring) : s <> t -> JsString.eqb s t = false.
Proof. intros H. unfold JsString.eqb. apply bool_decide_eq_false_2. exact H. Qed.

Lemma code_is_true (e : AxiosError.t) (c : jsstring) :
  AxiosError.code e = Some c -> code_is e c = true.
Proof. intros H. unfold code_is. rewrite H. apply eqb_refl. Qed.

Lemma code_is_false (e : AxiosError.t) (c : jsstring) :
  AxiosError.code e <> Some c -> code_is e c = false.
Proof.
  intros H. unfold code_is.
  destruct (AxiosError.code e) as [c'|]; [|reflexivity].
  apply eqb_neq. congruence.
Qed.

Lemma or_else_truthy (s d : jsstring) : truthy s = true -> or_else (Some s) d = s.
Proof. intros H. unfold or_else. rewrite H. reflexivity. Qed.

Context {T : Type}.
Variable api_get : Request -> Settled (AxiosResponse.t T).

(** [getWeather] awaits [api.get] once and settles as the [try] or the
    [catch] block dictates. *)
Lemma getWeather_fulfilled (c : jsstring) (response : AxiosResponse.t T) :
  api_get (weather_request c) = Fulfilled response ->
  getWeather api_get c
  = (Fulfilled (AxiosResponse.data response), [weather_request c]).
Proof.
  intros H. unfold getWeather. fold (weather_request c).
  rewrite H. reflexivity.
Qed.

Lemma getWeather_rejected (c : jsstring) (error : Exn) :
  api_get (weather_request c) = Rejected error ->
  getWeather api_get c = (Rejected (on_rejected error), [weather_request c]).
Proof.
  intros H. unfold getWeather. fold (weather_request c).
  rewrite H. reflexivity.
Qed.

End Client.

(** Enter the [catch] block with the rejection [Hget] and the response
    [Hresp] of the caught Axios error. *)
Ltac enter_catch Hget Hresp :=
  rewrite (getWeather_rejected _ _ _ Hget);
  unfold Api.on_rejected; rewrite Hresp.

(** The client itself does not validate: an empty city is sent as it is. *)
Example getWeather_sends_empty_city :
  snd (Api.getWeather (T := Api.CityWeather.t)
         (fun _ => Api.Rejected (Api.Thrown Api.JsUndefined)) (lit ""))
  = [{| Api.url := lit "/weather"; Api.params := {| Api.city := lit "" |} |}].
Proof. reflexivity. Qed.

(** C2, as stated, fails: a classified error body whose message is the
    empty string is not surfaced as it is; the client substitutes its own
    default message. *)
Lemma C2_empty_message_counterexample :
  let body :=
    {| Api.ErrorResponse.code := Some (lit "BAD_REQUEST");
       Api.ErrorResponse.message := Some (lit "");
       Api.ErrorResponse.details := Some [] |} in
  let e :=
    {| Api.AxiosError.message := lit "Request failed";
       Api.AxiosError.code := Some (lit "ERR_BAD_REQUEST");
       Api.AxiosError.response :=
         Some {| Api.AxiosResponse.data := Some body;
                 Api.AxiosResponse.status := 422 |} |} in
  exists w,
    fst (Api.getWeather (T := Api.CityWeather.t)
           (fun _ => Api.Rejected (Api.AxiosErr e)) (lit "London"))
    = Api.Rejected (Api.WeatherErr w) /\
    Api.WeatherAPIError.message w = lit "Failed to fetch weather data" /\
    Some (Api.WeatherAPIError.message w) <> Api.ErrorResponse.message body.
Proof.
  eexists. split; [reflexivity|]. split; [reflexivity|]. discriminate.
Qed.

(** C2 (amended): for every HTTP error response that carries a body,
    [getWeather] issues one request and rejects with a [WeatherAPIError]
    carrying the status of the response: no retry, no fallback value.  A
    non-empty code, a non-empty message and the details of the body are
    surfaced as they are; an empty or missing message is replaced by
    "Failed to fetch weather data", an empty or missing code by
    "UNKNOWN_ERROR", missing details by the empty object. *)
Theorem C2_classified_error_surfaced
    (T : Type) (api_get : Api.Request -> Api.Settled (Api.AxiosResponse.t T))
    (c : jsstring) (e : Api.AxiosError.t)
    (body : Api.ErrorResponse.t) (status : Z) :
  api_get (Api.weather_request c) = Api.Rejected (Api.AxiosErr e) ->
  Api.AxiosError.response e =
    Some {| Api.AxiosResponse.data := Some body;
            Api.AxiosResponse.status := status |} ->
  exists w,
    Api.getWeather api_get c
    = (Api.Rejected (Api.WeatherErr w), [Api.weather_request c]) /\
    Api.WeatherAPIError.statusCode w = status /\
    (forall code, Api.ErrorResponse.code body = Some code ->
       truthy code = true -> Api.WeatherAPIError.code w = code) /\
    (forall message, Api.ErrorResponse.message body = Some message ->
       truthy message = true -> Api.WeatherAPIError.message w = message) /\
    (forall details, Api.ErrorResponse.details body = Some details ->
       Api.WeatherAPIError.details w = details) /\
    (Api.ErrorResponse.code body = None \/ Api.ErrorResponse.code body = Some [] ->
       Api.WeatherAPIError.code w = lit "UNKNOWN_ERROR") /\
    (Api.ErrorResponse.message body = None \/
     Api.ErrorResponse.message body = Some [] ->
       Api.WeatherAPIError.message w = lit "Failed to fetch weather data") /\
    (Api.ErrorResponse.details body = None -> Api.WeatherAPIError.details w = []).
Proof.
  intros Hget Hresp.
  enter_catch Hget Hresp.
  eexists. split; [reflexivity|]. split; [reflexivity|].
  cbn [Api.WeatherAPIError.new Api.WeatherAPIError.code
       Api.WeatherAPIError.message Api.WeatherAPIError.details].
  repeat split.
  - intros code -> Hc. apply or_else_truthy, Hc.
  - intros message -> Hm. apply or_else_truthy, Hm.
  - intros details ->. reflexivity.
  - intros [-> | ->]; reflexivity.
  - intros [-> | ->]; reflexivity.
  - intros ->. reflexivity.
Qed.

Lemma C2_witness_unknown_city :
  let body :=
    {| Api.ErrorResponse.code := Some (lit "UNKNOWN_CITY");
       Api.ErrorResponse.message := Some (lit "Invalid or unknown city: Atlantis");
       Api.ErrorResponse.details := Some [] |} in
  let e :=
    {| Api.AxiosError.message := lit "Request failed";
       Api.AxiosError.code := Some (lit "ERR_BAD_REQUEST");
       Api.AxiosError.response :=
         Some {| Api.AxiosResponse.data := Some body;
                 Api.AxiosResponse.status := 422 |} |} in
  exists w,
    Api.getWeather (T := Api.CityWeather.t)
      (fun _ => Api.Rejected (Api.AxiosErr e)) (lit "Atlantis")
    = (Api.Rejected (Api.WeatherErr w), [Api.weather_request (lit "Atlantis")]) /\
    Api.WeatherAPIError.statusCode w = 422%Z /\
    Api.WeatherAPIError.code w = lit "UNKNOWN_CITY" /\
    Api.WeatherAPIError.message w = lit "Invalid or unknown city: Atlantis" /\
    Api.WeatherAPIError.details w = [].
Proof.
  intros body e.
  destruct (C2_classified_error_surfaced Api.CityWeather.t
              (fun _ => Api.Rejected (Api.AxiosErr e)) (lit "Atlantis") e
              body 422%Z eq_refl eq_refl)
    as (w & Hw & Hstatus & Hcode & Hmessage & Hdetails & _).
  exists w. split; [exact Hw|]. split; [exact Hstatus|].
  split; [exact (Hcode _ eq_refl eq_refl)|].
  split; [exact (Hmessage _ eq_refl eq_refl)|].
  exact (Hdetails _ eq_refl).
Defined.

(** C3: when the request times out (an Axios error without a response,
    flagged [ECONNABORTED]), [getWeather] issues one request and rejects
    with the [WeatherAPIError] of code [TIMEOUT] and status 408. *)
Theorem C3_transport_timeout
    (T : Type) (api_get : Api.Request -> Api.Settled (Api.AxiosResponse.t T))
    (c : jsstring) (e : Api.AxiosError.t) :
  api_get (Api.weather_request c) = Api.Rejected (Api.AxiosErr e) ->
  Api.AxiosError.response e = None ->
  Api.AxiosError.code e = Some (lit "ECONNABORTED") ->
  Api.getWeather api_get c =
    (Api.Rejected (Api.WeatherErr
       {| Api.WeatherAPIError.name := lit "WeatherAPIError";
          Api.WeatherAPIError.message := lit "Request timed out. Please try again.";
          Api.WeatherAPIError.code := lit "TIMEOUT";
          Api.WeatherAPIError.statusCode := 408;
          Api.WeatherAPIError.details := [] |}),
     [Api.weather_request c]).
Proof.
  intros Hget Hresp Hcode.
  enter_catch Hget Hresp.
  rewrite (code_is_true e _ Hcode). reflexivity.
Qed.

Lemma C3_witness_timeout :
  let e :=
    {| Api.AxiosError.message := lit "timeout of 10000ms exceeded";
       Api.AxiosError.code := Some (lit "ECONNABORTED");
       Api.AxiosError.response := None |} in
  exists w,
    Api.getWeather (T := Api.CityWeather.t)
      (fun _ => Api.Rejected (Api.AxiosErr e)) (lit "London")
    = (Api.Rejected (Api.WeatherErr w), [Api.weather_request (lit "London")]) /\
    Api.WeatherAPIError.code w = lit "TIMEOUT" /\
    Api.getErrorMessage (Api.WeatherErr w) = lit "Request timed out. Please try again.".
Proof.
  intros e. eexists. split; [|split].
  - apply (C3_transport_timeout Api.CityWeather.t
             (fun _ => Api.Rejected (Api.AxiosErr e)) (lit "London") e);
      reflexivity.
  - reflexivity.
  - vm_compute. reflexivity.
Defined.

(** C4: when the request fails without any response and without the
    timeout flag, [getWeather] issues one request and rejects with the
    [WeatherAPIError] of code [NETWORK_ERROR] and status 0. *)
Theorem C4_connection_failure
    (T : Type) (api_get : Api.Request -> Api.Settled (Api.AxiosResponse.t T))
    (c : jsstring) (e : Api.AxiosError.t) :
  api_get (Api.weather_request c) = Api.Rejected (Api.AxiosErr e) ->
  Api.AxiosError.response e = None ->
  Api.AxiosError.code e <> Some (lit "ECONNABORTED") ->
  Api.getWeather api_get c =
    (Api.Rejected (Api.WeatherErr
       {| Api.WeatherAPIError.name := lit "WeatherAPIError";
          Api.WeatherAPIError.message :=
            lit "Unable to connect to weather service. Please check your internet connection.";
          Api.WeatherAPIError.code := lit "NETWORK_ERROR";
          Api.WeatherAPIError.statusCode := 0;
          Api.WeatherAPIError.details := [] |}),
     [Api.weather_request c]).
Proof.
  intros Hget Hresp Hcode.
  enter_catch Hget Hresp.
  rewrite (code_is_false e _ Hcode). reflexivity.
Qed.

Lemma C4_witness_network_error :
  let e :=
    {| Api.AxiosError.message := lit "Network Error";
       Api.AxiosError.code := Some (lit "ERR_NETWORK");
       Api.AxiosError.response := None |} in
  exists w,
    Api.getWeather (T := Api.CityWeather.t)
      (fun _ => Api.Rejected (Api.AxiosErr e)) (lit "London")
    = (Api.Rejected (Api.WeatherErr w), [Api.weather_request (lit "London")]) /\
    Api.WeatherAPIError.code w = lit "NETWORK_ERROR".
Proof.
  intros e. eexists. split.
  - apply (C4_connection_failure Api.CityWeather.t
             (fun _ => Api.Rejected (Api.AxiosErr e)) (lit "London") e);
      [reflexivity | reflexivity | discriminate].
  - reflexivity.
Defined.

(** C5, as stated, fails: an error body whose code is outside the taxonomy
    is not folded into the catch-all kind; the client forwards the code it
    was given. *)
Lemma C5_foreign_code_counterexample :
  let body :=
    {| Api.ErrorResponse.code := Some (lit "RATE_LIMITED");
       Api.ErrorResponse.message := Some (lit "Slow down");
       Api.ErrorResponse.details := Some [] |} in
  let e :=
    {| Api.AxiosError.message := lit "Request failed";
       Api.AxiosError.code := Some (lit "ERR_BAD_RESPONSE");
       Api.AxiosError.response :=
         Some {| Api.AxiosResponse.data := Some body;
                 Api.AxiosResponse.status := 500 |} |} in
  exists w,
    fst (Api.getWeather (T := Api.CityWeather.t)
           (fun _ => Api.Rejected (Api.AxiosErr e)) (lit "London"))
    = Api.Rejected (Api.WeatherErr w) /\
    Api.WeatherAPIError.code w = lit "RATE_LIMITED" /\
    Api.WeatherAPIError.code w <> lit "UNKNOWN_ERROR" /\
    Api.WeatherAPIError.code w <> lit "INTERNAL_ERROR".
Proof.
  eexists. split; [reflexivity|]. split; [reflexivity|].
  split; discriminate.
Qed.

(** C5 (amended): every HTTP error response whose body is empty, or
    carries no code or an empty one, is mapped to the client's catch-all
    code [UNKNOWN_ERROR] with the status of the response, provided that,
    when the body is empty, the error is not flagged [ECONNABORTED]; a
    non-empty code of the body is forwarded as it is. *)
Theorem C5_unclassified_response
    (T : Type) (api_get : Api.Request -> Api.Settled (Api.AxiosResponse.t T))
    (c : jsstring) (e : Api.AxiosError.t) (response : Api.ErrorBody) :
  api_get (Api.weather_request c) = Api.Rejected (Api.AxiosErr e) ->
  Api.AxiosError.response e = Some response ->
  match Api.AxiosResponse.data response with
  | Some body =>
      Api.ErrorResponse.code body = None \/ Api.ErrorResponse.code body = Some []
  | None => Api.AxiosError.code e <> Some (lit "ECONNABORTED")
  end ->
  exists w,
    Api.getWeather api_get c
    = (Api.Rejected (Api.WeatherErr w), [Api.weather_request c]) /\
    Api.WeatherAPIError.code w = lit "UNKNOWN_ERROR" /\
    Api.WeatherAPIError.statusCode w = Api.AxiosResponse.status response.
Proof.
  intros Hget Hresp Hbody.
  enter_catch Hget Hresp.
  destruct response as [[body|] status]; cbn in Hbody |- *.
  - eexists. split; [reflexivity|]. split; [|reflexivity].
    destruct Hbody as [-> | ->]; reflexivity.
  - rewrite (code_is_false e _ Hbody).
    eexists. split; [reflexivity|]. split; reflexivity.
Qed.

Lemma C5_witness_no_body :
  let e :=
    {| Api.AxiosError.message := lit "Request failed";
       Api.AxiosError.code := Some (lit "ERR_BAD_RESPONSE");
       Api.AxiosError.response :=
         Some {| Api.AxiosResponse.data := None;
                 Api.AxiosResponse.status := 500 |} |} in
  exists w,
    Api.getWeather (T := Api.CityWeather.t)
      (fun _ => Api.Rejected (Api.AxiosErr e)) (lit "London")
    = (Api.Rejected (Api.WeatherErr w), [Api.weather_request (lit "London")]) /\
    Api.WeatherAPIError.code w = lit "UNKNOWN_ERROR" /\
    Api.WeatherAPIError.statusCode w = 500%Z.
Proof.
  intros e.
  apply (C5_unclassified_response Api.CityWeather.t
           (fun _ => Api.Rejected (Api.AxiosErr e)) (lit "London") e
           {| Api.AxiosResponse.data := None; Api.AxiosResponse.status := 500 |});
    [reflexivity | reflexivity | discriminate].
Defined.

(** C9: on an HTTP success [getWeather] returns the body of the response
    as it was received, whatever it is; a payload that breaks the
    data-model invariants comes back unchanged. *)
Theorem C9_success_payload_returned_unchanged :
  (forall (T : Type)
          (api_get : Api.Request -> Api.Settled (Api.AxiosResponse.t T))
          (c : jsstring) (response : Api.AxiosResponse.t T),
     api_get (Api.weather_request c) = Api.Fulfilled response ->
     Api.getWeather api_get c
     = (Api.Fulfilled (Api.AxiosResponse.data response),
        [Api.weather_request c])) /\
  (exists p : Api.CityWeather.t,
     Api.invariants_hold p = false /\
     forall (c : jsstring) (status : Z),
       fst (Api.getWeather
              (fun _ => Api.Fulfilled
                 {| Api.AxiosResponse.data := p;
                    Api.AxiosResponse.status := status |}) c)
       = Api.Fulfilled p).
Proof.
  split.
  - intros T api_get c response H. apply getWeather_fulfilled. exact H.
  - exists {| Api.CityWeather.city := lit "London";
              Api.CityWeather.temperature := 22.5%Q;
              Api.CityWeather.humidity := 150%Q;
              Api.CityWeather.wind_speed := (-1)%Q;
              Api.CityWeather.condition := lit "";
              Api.CityWeather.fetched_at := lit "2024-01-15T10:30:00.000Z";
              Api.CityWeather.provider := lit "weatherapi" |}.
    split; reflexivity.
Qed.

Lemma C9_witness_humidity_150 :
  let p :=
    {| Api.CityWeather.city := lit "London";
       Api.CityWeather.temperature := 22.5%Q;
       Api.CityWeather.humidity := 150%Q;
       Api.CityWeather.wind_speed := 12.7%Q;
       Api.CityWeather.condition := lit "Partly cloudy";
       Api.CityWeather.fetched_at := lit "2024-01-15T10:30:00.000Z";
       Api.CityWeather.provider := lit "weatherapi" |} in
  Api.invariants_hold p = false /\
  Api.getWeather
    (fun _ => Api.Fulfilled
       {| Api.AxiosResponse.data := p; Api.AxiosResponse.status := 200 |})
    (lit "  London ")
  = (Api.Fulfilled p, [Api.weather_request (lit "London")]).
Proof.
  intros p. split; [reflexivity|].
  exact (proj1 C9_success_payload_returned_unchanged Api.CityWeather.t
           (fun _ => Api.Fulfilled
              {| Api.AxiosResponse.data := p; Api.AxiosResponse.status := 200 |})
           (lit "  London ")
           {| Api.AxiosResponse.data := p; Api.AxiosResponse.status := 200 |}
           eq_refl).
Defined.

(** C10: when [api.get] rejects with a value that is not an Axios error,
    [getWeather] rejects with that very value; a plain [Error], a bare
    object and [undefined] are such values, and none of them is a
    [WeatherAPIError]. *)
Theorem C10_non_axios_rethrown :
  (forall (T : Type)
          (api_get : Api.Request -> Api.Settled (Api.AxiosResponse.t T))
          (c : jsstring) (error : Api.Exn),
     api_get (Api.weather_request c) = Api.Rejected error ->
     Api.isAxiosError error = false ->
     Api.getWeather api_get c = (Api.Rejected error, [Api.weather_request c])) /\
  (forall error,
     In error [Api.PlainError (lit "Some other error");
               Api.Thrown (Api.JsObject []);
               Api.Thrown Api.JsUndefined] ->
     Api.isAxiosError error = false /\ Api.isWeatherAPIError error = false).
Proof.
  split.
  - intros T api_get c error Hget Hax.
    rewrite (getWeather_rejected api_get c _ Hget).
    destruct error; [discriminate Hax | reflexivity ..].
  - intros error [<- | [<- | [<- | []]]]; split; reflexivity.
Qed.

Lemma C10_witness_undefined :
  Api.getWeather (T := Api.CityWeather.t)
    (fun _ => Api.Rejected (Api.Thrown Api.JsUndefined)) (lit "London")
  = (Api.Rejected (Api.Thrown Api.JsUndefined),
     [Api.weather_request (lit "London")]) /\
  Api.getErrorMessage (Api.Thrown Api.JsUndefined)
  = lit "An unexpected error occurred. Please try again.".
Proof.
  split.
  - exact (proj1 C10_non_axios_rethrown Api.CityWeather.t
             (fun _ => Api.Rejected (Api.Thrown Api.JsUndefined))
             (lit "London") (Api.Thrown Api.JsUndefined) eq_refl eq_refl).
  - vm_compute. reflexivity.
Defined.

(** ** The retrieval pipeline: cache hits and expiry *)

Section Pipeline.
Import Retrieval.
Local Open Scope Z_scope.

Variable ttl : Time.
Variable casefold : jsstring -> jsstring.
Variable provider_call : jsstring -> Time -> Observed.

Lemma parse_fetched_at (now : Time) (p : Payload) (r : WeatherRecord) :
  parse now p = Some r -> fetched_at r = now.
Proof.
  unfold parse. intros H.
  destruct (p_city p), (p_temperature p), (p_humidity p),
           (p_wind_speed p), (p_condition p); try discriminate H.
  injection H as <-. reflexivity.
Qed.

(** An entry is served as long as its age does not exceed the TTL ... *)
Lemma cache_get_put_live (t0 t1 : Time) (key : jsstring) (r : WeatherRecord)
    (m : gmap jsstring Entry) :
  t1 - t0 <= ttl -> cache_get ttl t1 key (cache_put t0 key r m) = Some r.
Proof.
  intros H. unfold cache_get, cache_put. rewrite lookup_insert_eq. simpl.
  destruct (Z.ltb_spec ttl (t1 - t0)); [lia | reflexivity].
Qed.

(** ... and is treated as absent afterwards. *)
Lemma cache_get_put_expired (t0 t1 : Time) (key : jsstring) (r : WeatherRecord)
    (m : gmap jsstring Entry) :
  ttl < t1 - t0 -> cache_get ttl t1 key (cache_put t0 key r m) = None.
Proof.
  intros H. unfold cache_get, cache_put. rewrite lookup_insert_eq. simpl.
  destruct (Z.ltb_spec ttl (t1 - t0)); [reflexivity | lia].
Qed.

(** A hit returns the cached record and touches nothing. *)
Lemma getWeather_hit (c : jsstring) (now : Time) (st : State) (r : WeatherRecord) :
  valid c = true ->
  cache_get ttl now (cache_key casefold (trim c)) (cache st) = Some r ->
  getWeather ttl casefold provider_call c now st = (inr r, st).
Proof.
  intros Hv Hhit. unfold getWeather. rewrite Hv, Hhit. reflexivity.
Qed.

(** A miss followed by a successful fetch caches the record and logs the
    one provider call. *)
Lemma getWeather_miss_success (c : jsstring) (now : Time) (st : State)
    (p : Payload) (r : WeatherRecord) :
  valid c = true ->
  cache_get ttl now (cache_key casefold (trim c)) (cache st) = None ->
  provider_call (trim c) now = SuccessPayload p ->
  parse now p = Some r ->
  getWeather ttl casefold provider_call c now st =
    (inr r,
     {| cache := cache_put now (cache_key casefold (trim c)) r (cache st);
        calls := calls st ++ [trim c] |}).
Proof.
  intros Hv Hmiss Hcall Hparse.
  unfold getWeather, fetch, classify.
  rewrite Hv, Hmiss, Hcall, Hparse. reflexivity.
Qed.

(** An input that fails the validation is turned down before the cache
    or the provider is touched. *)
Lemma getWeather_invalid (c : jsstring) (now : Time) (st : State) :
  valid c = false ->
  getWeather ttl casefold provider_call c now st = (inl InvalidInput, st).
Proof. intros Hv. unfold getWeather. rewrite Hv. reflexivity. Qed.

(** A failed fetch is propagated and never cached. *)
Lemma getWeather_miss_failure (c : jsstring) (now : Time) (st : State)
    (e : ErrorKind) :
  valid c = true ->
  cache_get ttl now (cache_key casefold (trim c)) (cache st) = None ->
  fetch provider_call (trim c) now = inl e ->
  getWeather ttl casefold provider_call c now st =
    (inl e, {| cache := cache st; calls := calls st ++ [trim c] |}).
Proof.
  intros Hv Hmiss Hfetch. unfold getWeather.
  rewrite Hv, Hmiss, Hfetch. reflexivity.
Qed.

End Pipeline.

(** C8: for valid inputs [c] and [c'] with the same normalized key, a call
    for [c] at [t0] that misses the cache and fetches successfully returns
    a record stamped [t0]; a second call for [c'] at any [t1] returns the
    very same record, without a provider call, while [t1 - t0] does not
    exceed the TTL, and, once it does and the provider answers again, a
    record whose [fetched_at] is the later instant [t1]. *)
Theorem C8_hit_within_ttl_refetch_after
    (ttl : Retrieval.Time) (casefold : jsstring -> jsstring)
    (provider_call : jsstring -> Retrieval.Time -> Retrieval.Observed)
    (c c' : jsstring) (t0 : Retrieval.Time) (s0 : Retrieval.State)
    (p : Retrieval.Payload) (r1 : Retrieval.WeatherRecord) :
  (0 <= ttl)%Z ->
  Retrieval.valid c = true ->
  Retrieval.valid c' = true ->
  Retrieval.cache_key casefold (trim c') = Retrieval.cache_key casefold (trim c) ->
  Retrieval.cache_get ttl t0 (Retrieval.cache_key casefold (trim c))
    (Retrieval.cache s0) = None ->
  provider_call (trim c) t0 = Retrieval.SuccessPayload p ->
  Retrieval.parse t0 p = Some r1 ->
  exists s1,
    Retrieval.getWeather ttl casefold provider_call c t0 s0 = (inr r1, s1) /\
    Retrieval.fetched_at r1 = t0 /\
    Retrieval.calls s1 = Retrieval.calls s0 ++ [trim c] /\
    forall t1 : Retrieval.Time,
      ((t1 - t0 <= ttl)%Z ->
       Retrieval.getWeather ttl casefold provider_call c' t1 s1 = (inr r1, s1)) /\
      ((ttl < t1 - t0)%Z ->
       forall p' r2,
         provider_call (trim c') t1 = Retrieval.SuccessPayload p' ->
         Retrieval.parse t1 p' = Some r2 ->
         exists s2,
           Retrieval.getWeather ttl casefold provider_call c' t1 s1 = (inr r2, s2) /\
           Retrieval.fetched_at r2 = t1 /\
           (Retrieval.fetched_at r1 < Retrieval.fetched_at r2)%Z /\
           Retrieval.calls s2 = Retrieval.calls s1 ++ [trim c']).
Proof.
  intros Httl Hv Hv' Hkey Hmiss Hcall Hparse.
  eexists. split.
  { apply getWeather_miss_success with (p := p); assumption. }
  pose proof (parse_fetched_at _ _ _ Hparse) as Hf1.
  split; [exact Hf1|]. split; [reflexivity|]. intros t1. split.
  - intros Hin. apply getWeather_hit; [exact Hv'|].
    rewrite Hkey. simpl. apply cache_get_put_live. exact Hin.
  - intros Hout p' r2 Hcall' Hparse'.
    eexists. split.
    { apply getWeather_miss_success with (p := p'); try assumption.
      rewrite Hkey. simpl. apply cache_get_put_expired. exact Hout. }
    pose proof (parse_fetched_at _ _ _ Hparse') as Hf2.
    split; [exact Hf2|]. split; [lia | reflexivity].
Qed.

Lemma C8_witness_london :
  let provider_call := fun (_ : jsstring) (_ : Retrieval.Time) =>
    Retrieval.SuccessPayload
      {| Retrieval.p_city := Some (lit "London");
         Retrieval.p_temperature := Some 22.5%Q;
         Retrieval.p_humidity := Some 65%Z;
         Retrieval.p_wind_speed := Some 12.7%Q;
         Retrieval.p_condition := Some (lit "Partly cloudy") |} in
  let record_at := fun t : Retrieval.Time =>
    {| Retrieval.city := lit "London";
       Retrieval.temperature := 22.5%Q;
       Retrieval.humidity := 65%Z;
       Retrieval.wind_speed := 12.7%Q;
       Retrieval.condition := lit "Partly cloudy";
       Retrieval.fetched_at := t;
       Retrieval.provider := Retrieval.provider_literal |} in
  let s0 := {| Retrieval.cache := ∅; Retrieval.calls := [] |} in
  exists s1,
    Retrieval.getWeather 300%Z Retrieval.ascii_casefold provider_call
      (lit "  London  ") 1000%Z s0 = (inr (record_at 1000%Z), s1) /\
    Retrieval.calls s1 = [lit "London"] /\
    Retrieval.getWeather 300%Z Retrieval.ascii_casefold provider_call
      (lit "london") 1300%Z s1 = (inr (record_at 1000%Z), s1) /\
    exists s2,
      Retrieval.getWeather 300%Z Retrieval.ascii_casefold provider_call
        (lit "london") 1301%Z s1 = (inr (record_at 1301%Z), s2) /\
      Retrieval.calls s2 = [lit "London"; lit "london"].
Proof.
  intros provider_call record_at s0.
  destruct (C8_hit_within_ttl_refetch_after 300%Z Retrieval.ascii_casefold
              provider_call (lit "  London  ") (lit "london") 1000%Z s0
              {| Retrieval.p_city := Some (lit "London");
                 Retrieval.p_temperature := Some 22.5%Q;
                 Retrieval.p_humidity := Some 65%Z;
                 Retrieval.p_wind_speed := Some 12.7%Q;
                 Retrieval.p_condition := Some (lit "Partly cloudy") |}
              (record_at 1000%Z))
    as (s1 & Hfirst & _ & Hcalls & Hsecond);
    [lia | reflexivity | reflexivity | reflexivity | reflexivity
    | reflexivity | reflexivity |].
  exists s1. split; [exact Hfirst|]. split; [exact Hcalls|]. split.
  - apply (proj1 (Hsecond 1300%Z)). lia.
  - destruct (proj2 (Hsecond 1301%Z) ltac:(lia) _ (record_at 1301%Z)
                eq_refl eq_refl) as (s2 & Hs2 & _ & _ & Hcalls2).
    exists s2. split; [exact Hs2|]. rewrite Hcalls2, Hcalls. reflexivity.
Defined.

(** ** The form beyond its validation *)


(** X11: the submit button is disabled exactly while a search is loading,
    a submission is in flight, or the input holds nothing but blanks. *)
Theorem X_submit_disabled_iff_blank_or_busy
    (props : WeatherForm.Props) (st : WeatherForm.State) :
  WeatherForm.submitDisabled props st =
    WeatherForm.loading props || WeatherForm.isSubmitting st
    || forallb isWhiteSpace (WeatherForm.city st).
Proof.
  unfold WeatherForm.submitDisabled. rewrite trim_blank, negb_involutive.
  reflexivity.
Qed.

(** X12: when the submit button is enabled and the input respects the
    field's [maxLength] of 100, a submit passes the guard and the
    validation, calls [onSubmit] once with the trimmed city between the two
    [isSubmitting] updates, and causes exactly one request. *)
Theorem X_enabled_button_submits_once
    (props : WeatherForm.Props) (st : WeatherForm.State) :
  WeatherForm.submitDisabled props st = false ->
  (length (WeatherForm.city st) <= 100)%nat ->
  WeatherForm.handleSubmit props st
  = [Form.PreventDefault; Form.SetInputError None;
     Form.SetIsSubmitting true; Form.OnSubmit (trim (WeatherForm.city st));
     Form.SetIsSubmitting false] /\
  forall api_get,
    App.requests_of api_get (WeatherForm.handleSubmit props st)
    = [Api.weather_request (WeatherForm.city st)].
Proof.
  intros Hen Hlen. unfold WeatherForm.submitDisabled in Hen.
  apply orb_false_elim in Hen as [Hbusy Hblank].
  apply orb_false_elim in Hbusy as [Hl Hs].
  apply negb_false_iff in Hblank.
  assert (Hshort : longer_than (trim (WeatherForm.city st)) 100 = false).
  { unfold longer_than. apply Nat.ltb_ge.
    pose proof (trim_length (WeatherForm.city st)). lia. }
  assert (Hrun : WeatherForm.handleSubmit props st
    = [Form.PreventDefault; Form.SetInputError None;
       Form.SetIsSubmitting true; Form.OnSubmit (trim (WeatherForm.city st));
       Form.SetIsSubmitting false]).
  { unfold WeatherForm.handleSubmit. rewrite Hl, Hs. simpl.
    rewrite Hblank, Hshort. reflexivity. }
  split; [exact Hrun|].
  intros api_get. rewrite requests_of_submitted, Hrun. simpl.
  unfold Api.weather_request. rewrite trim_idem. reflexivity.
Qed.

Lemma X_enabled_button_witness :
  WeatherForm.handleSubmit
    {| WeatherForm.loading := false; WeatherForm.error := None |}
    {| WeatherForm.city := lit "  Tokyo  "; WeatherForm.inputError := None;
       WeatherForm.isSubmitting := false |}
  = [Form.PreventDefault; Form.SetInputError None;
     Form.SetIsSubmitting true; Form.OnSubmit (lit "Tokyo");
     Form.SetIsSubmitting false].
Proof.
  refine (proj1 (X_enabled_button_submits_once
            {| WeatherForm.loading := false; WeatherForm.error := None |}
            {| WeatherForm.city := lit "  Tokyo  "; WeatherForm.inputError := None;
               WeatherForm.isSubmitting := false |} _ _)).
  - reflexivity.
  - vm_compute. lia.
Defined.

(** The three ways a run of the later handler can go. *)
Lemma handleSubmit_cases (props : WeatherForm.Props) (st : WeatherForm.State) :
  let c := trim (WeatherForm.city st) in
  (WeatherForm.isSubmitting st || WeatherForm.loading props = true /\
   WeatherForm.handleSubmit props st = [Form.PreventDefault]) \/
  (WeatherForm.isSubmitting st || WeatherForm.loading props = false /\
   Form.invalid_input (WeatherForm.city st) = true /\
   WeatherForm.handleSubmit props st = Form.rejecting_effects (WeatherForm.city st)) \/
  (WeatherForm.isSubmitting st || WeatherForm.loading props = false /\
   Form.invalid_input (WeatherForm.city st) = false /\
   WeatherForm.handleSubmit props st
   = [Form.PreventDefault; Form.SetInputError None;
      Form.SetIsSubmitting true; Form.OnSubmit c; Form.SetIsSubmitting false]).
Proof.
  intros c. subst c.
  unfold WeatherForm.handleSubmit, Form.invalid_input, Form.rejecting_effects.
  destruct (WeatherForm.isSubmitting st || WeatherForm.loading props);
    [left; split; reflexivity | right].
  destruct (truthy (trim (WeatherForm.city st))); simpl.
  - destruct (longer_than (trim (WeatherForm.city st)) 100);
      [left | right]; repeat split.
  - left. repeat split.
Qed.

(** X15: [onSubmit] is only ever called with a validated city: the trimmed
    form of the input, not empty, at most 100 code units long, and without
    a blank at either end. *)
Theorem X_onSubmit_receives_valid_city
    (props : WeatherForm.Props) (st : WeatherForm.State) (c : jsstring) :
  In c (Form.submitted (WeatherForm.handleSubmit props st)) ->
  c = trim (WeatherForm.city st) /\
  truthy c = true /\
  (length c <= 100)%nat /\
  trim c = c /\
  Form.submitted (WeatherForm.handleSubmit props st) = [c].
Proof.
  intros Hin.
  destruct (handleSubmit_cases props st) as [[_ H] | [(_ & _ & H) | (_ & Hv & H)]];
    rewrite H in Hin |- *.
  - destruct Hin.
  - destruct Hin.
  - simpl in Hin. destruct Hin as [<- | []].
    unfold Form.invalid_input in Hv.
    apply orb_false_elim in Hv as [Ht Hl].
    apply negb_false_iff in Ht. unfold longer_than in Hl.
    apply Nat.ltb_ge in Hl.
    repeat split; [exact Ht | exact Hl | apply trim_idem].
Qed.

Lemma X_onSubmit_valid_witness :
  truthy (lit "Berlin") = true /\ trim (lit "Berlin") = lit "Berlin".
Proof.
  destruct (X_onSubmit_receives_valid_city
              {| WeatherForm.loading := false; WeatherForm.error := None |}
              {| WeatherForm.city := lit " Berlin"; WeatherForm.inputError := None;
                 WeatherForm.isSubmitting := false |}
              (lit "Berlin"))
    as (_ & Ht & _ & Hfix & _).
  - vm_compute. left. reflexivity.
  - split; [exact Ht | exact Hfix].
Defined.

(** X9: a submit that reaches [onSubmit] has set [isSubmitting] by then, so
    a second submit handled in that state is dropped whatever the props;
    and once the run is over [isSubmitting] is reset and the input field is
    left as it was. *)
Theorem X_double_submit_dropped
    (props props' : WeatherForm.Props) (st : WeatherForm.State) (c : jsstring) :
  Form.submitted (WeatherForm.handleSubmit props st) = [c] ->
  WeatherForm.handleSubmit props'
    (WeatherForm.run st (Form.before_callback (WeatherForm.handleSubmit props st)))
  = [Form.PreventDefault] /\
  WeatherForm.isSubmitting (WeatherForm.run st (WeatherForm.handleSubmit props st))
  = false /\
  WeatherForm.city (WeatherForm.run st (WeatherForm.handleSubmit props st))
  = WeatherForm.city st.
Proof.
  intros Hsub.
  destruct (handleSubmit_cases props st) as [[_ H] | [(_ & _ & H) | (_ & _ & H)]];
    rewrite H in Hsub |- *; try discriminate Hsub.
  repeat split.
Qed.

Lemma X_double_submit_witness :
  let props := {| WeatherForm.loading := false; WeatherForm.error := None |} in
  let st := {| WeatherForm.city := lit "Madrid"; WeatherForm.inputError := None;
               WeatherForm.isSubmitting := false |} in
  WeatherForm.handleSubmit props
    (WeatherForm.run st (Form.before_callback (WeatherForm.handleSubmit props st)))
  = [Form.PreventDefault].
Proof.
  intros props st.
  exact (proj1 (X_double_submit_dropped props props st (lit "Madrid") eq_refl)).
Defined.

(** X10: a change event always stores the new value as it is, neither
    trimmed nor cut; a value holding something other than blanks leaves no
    input error on display, while a blank value leaves the input error as
    it was. *)
Theorem X_input_change
    (st : WeatherForm.State) (value : jsstring) :
  let st' := WeatherForm.handleInputChange st value in
  WeatherForm.city st' = value /\
  WeatherForm.isSubmitting st' = WeatherForm.isSubmitting st /\
  (if forallb isWhiteSpace value
   then WeatherForm.inputError st' = WeatherForm.inputError st
   else Form.shown (WeatherForm.inputError st') = false).
Proof.
  unfold WeatherForm.handleInputChange. rewrite trim_blank.
  destruct (forallb isWhiteSpace value); simpl.
  - rewrite andb_false_r. repeat split.
  - rewrite andb_true_r.
    destruct (Form.shown (WeatherForm.inputError st)) eqn:E; simpl;
      repeat split. exact E.
Qed.

(** X13: after a submit that the validation turns down, the alert shows the
    validation message and the input carries the error class, whatever
    error the parent passed in. *)
Theorem X_alert_after_rejection
    (props : WeatherForm.Props) (st : WeatherForm.State) :
  Form.invalid_input (WeatherForm.city st) = true ->
  WeatherForm.isSubmitting st || WeatherForm.loading props = false ->
  let st' := WeatherForm.run st (WeatherForm.handleSubmit props st) in
  WeatherForm.alert props st' =
    Some (if truthy (trim (WeatherForm.city st))
          then Form.msg_too_long else Form.msg_enter_city) /\
  WeatherForm.inputErrorClass props st' = true.
Proof.
  intros Hinv Hguard.
  destruct (handleSubmit_cases props st) as [[G _] | [(_ & _ & H) | (_ & Hv & _)]];
    [congruence | | congruence].
  rewrite H. unfold Form.rejecting_effects.
  unfold WeatherForm.alert, WeatherForm.inputErrorClass. simpl.
  destruct (truthy (trim (WeatherForm.city st))); split; reflexivity.
Qed.

Lemma X_alert_witness :
  let props := {| WeatherForm.loading := false;
                  WeatherForm.error := Some (lit "Network error") |} in
  let st := {| WeatherForm.city := lit ""; WeatherForm.inputError := None;
               WeatherForm.isSubmitting := false |} in
  WeatherForm.alert props st = Some (lit "Network error") /\
  WeatherForm.alert props (WeatherForm.run st (WeatherForm.handleSubmit props st))
  = Some Form.msg_enter_city.
Proof.
  intros props st. split; [reflexivity|].
  exact (proj1 (X_alert_after_rejection props st eq_refl eq_refl)).
Defined.

(** X14: past its guard the later handler submits what the first version
    submits and leaves the input error the first version leaves. *)
Theorem X_versions_agree
    (props : WeatherForm.Props) (c : jsstring) (e0 : option jsstring) :
  WeatherForm.loading props = false ->
  let v1 := WeatherFormV1.handleSubmit
              {| WeatherFormV1.city := c; WeatherFormV1.inputError := e0 |} in
  let v2 := WeatherForm.handleSubmit props
              {| WeatherForm.city := c; WeatherForm.inputError := e0;
                 WeatherForm.isSubmitting := false |} in
  Form.submitted v2 = Form.submitted v1 /\
  Form.inputErrorAfter e0 v2 = Form.inputErrorAfter e0 v1.
Proof.
  intros Hl. unfold WeatherFormV1.handleSubmit, WeatherForm.handleSubmit. simpl.
  rewrite Hl. simpl.
  destruct (truthy (trim c)); simpl; [|split; reflexivity].
  destruct (longer_than (trim c) 100); split; reflexivity.
Qed.

Lemma X_versions_agree_witness :
  Form.submitted
    (WeatherForm.handleSubmit
       {| WeatherForm.loading := false; WeatherForm.error := None |}
       {| WeatherForm.city := lit " Sydney "; WeatherForm.inputError := None;
          WeatherForm.isSubmitting := false |})
  = Form.submitted
      (WeatherFormV1.handleSubmit
         {| WeatherFormV1.city := lit " Sydney "; WeatherFormV1.inputError := None |}).
Proof.
  exact (proj1 (X_versions_agree
                  {| WeatherForm.loading := false; WeatherForm.error := None |}
                  (lit " Sydney ") None eq_refl)).
Defined.

(** ** The client beyond the claims *)

Lemma or_else_nonempty (a : option jsstring) (d : jsstring) :
  truthy d = true -> truthy (Api.or_else a d) = true.
Proof.
  intros Hd. unfold Api.or_else.
  destruct a as [s|]; [|exact Hd].
  destruct (truthy s) eqn:E; [exact E | exact Hd].
Qed.

(** The [catch] block turns every Axios error into a [WeatherAPIError] with
    a name, a code and a message that are not empty. *)
Lemma on_rejected_axios (e : Api.AxiosError.t) :
  exists w,
    Api.on_rejected (Api.AxiosErr e) = Api.WeatherErr w /\
    Api.WeatherAPIError.name w = lit "WeatherAPIError" /\
    truthy (Api.WeatherAPIError.code w) = true /\
    truthy (Api.WeatherAPIError.message w) = true.
Proof.
  unfold Api.on_rejected.
  destruct (Api.AxiosError.response e) as [[[body|] status]|].
  - eexists. split; [reflexivity|]. split; [reflexivity|].
    split; apply or_else_nonempty; reflexivity.
  - destruct (Api.code_is e (lit "ECONNABORTED"));
      eexists; repeat split.
  - destruct (Api.code_is e (lit "ECONNABORTED"));
      eexists; repeat split.
Qed.

(** X1: [getWeather] never rejects with a raw Axios error. *)
Theorem X_no_raw_axios_error
    (T : Type) (api_get : Api.Request -> Api.Settled (Api.AxiosResponse.t T))
    (c : jsstring) (e : Api.AxiosError.t) :
  fst (Api.getWeather api_get c) <> Api.Rejected (Api.AxiosErr e).
Proof.
  unfold Api.getWeather. simpl.
  destruct (api_get _) as [response | error]; [discriminate|].
  destruct error as [e' | w | m | v]; try discriminate.
  destruct (on_rejected_axios e') as (w & -> & _). discriminate.
Qed.

(** X2: whenever [api.get] rejects with an Axios error, [getWeather]
    rejects with a [WeatherAPIError] named "WeatherAPIError" whose code and
    message are not empty. *)
Theorem X_axios_rejection_classified
    (T : Type) (api_get : Api.Request -> Api.Settled (Api.AxiosResponse.t T))
    (c : jsstring) (e : Api.AxiosError.t) :
  api_get (Api.weather_request c) = Api.Rejected (Api.AxiosErr e) ->
  exists w,
    Api.getWeather api_get c
    = (Api.Rejected (Api.WeatherErr w), [Api.weather_request c]) /\
    Api.WeatherAPIError.name w = lit "WeatherAPIError" /\
    truthy (Api.WeatherAPIError.code w) = true /\
    truthy (Api.WeatherAPIError.message w) = true /\
    Api.isWeatherAPIError (Api.WeatherErr w) = true.
Proof.
  intros Hget. rewrite (getWeather_rejected api_get c _ Hget).
  destruct (on_rejected_axios e) as (w & -> & Hn & Hc & Hm).
  exists w. repeat split; assumption.
Qed.

Lemma X_axios_rejection_witness :
  let e :=
    {| Api.AxiosError.message := lit "Request failed";
       Api.AxiosError.code := None;
       Api.AxiosError.response :=
         Some {| Api.AxiosResponse.data :=
                   Some {| Api.ErrorResponse.code := Some (lit "");
                           Api.ErrorResponse.message := None;
                           Api.ErrorResponse.details := None |};
                 Api.AxiosResponse.status := 503 |} |} in
  exists w,
    Api.getWeather (T := Api.CityWeather.t)
      (fun _ => Api.Rejected (Api.AxiosErr e)) (lit "Oslo")
    = (Api.Rejected (Api.WeatherErr w), [Api.weather_request (lit "Oslo")]) /\
    truthy (Api.WeatherAPIError.code w) = true.
Proof.
  intros e.
  destruct (X_axios_rejection_classified Api.CityWeather.t
              (fun _ => Api.Rejected (Api.AxiosErr e)) (lit "Oslo") e eq_refl)
    as (w & Hw & _ & Hc & _).
  exists w. split; [exact Hw | exact Hc].
Defined.

(** X3: [getWeather] depends on its argument through the trimmed form
    only: two inputs with the same trimmed form get the same request and
    the same result. *)
Theorem X_getWeather_trim_invariant
    (T : Type) (api_get : Api.Request -> Api.Settled (Api.AxiosResponse.t T))
    (c c' : jsstring) :
  trim c = trim c' ->
  Api.getWeather api_get c = Api.getWeather api_get c' /\
  Api.getWeather api_get (trim c) = Api.getWeather api_get c.
Proof.
  intros H. unfold Api.getWeather. rewrite trim_idem, H. split; reflexivity.
Qed.

Lemma X_getWeather_trim_witness :
  let api_get := fun r : Api.Request =>
    Api.Fulfilled
      {| Api.AxiosResponse.data := Api.city (Api.params r);
         Api.AxiosResponse.status := 200 |} in
  Api.getWeather api_get (lit "  Paris  ") = Api.getWeather api_get (lit "Paris") /\
  fst (Api.getWeather api_get (lit "  Paris  ")) = Api.Fulfilled (lit "Paris").
Proof.
  intros api_get. split; [|reflexivity].
  exact (proj1 (X_getWeather_trim_invariant jsstring api_get
                  (lit "  Paris  ") (lit "Paris") eq_refl)).
Defined.

Lemma getErrorMessage_truthy (error : Api.Exn) :
  truthy (Api.getErrorMessage error) = true.
Proof.
  destruct error as [e | w | m | v]; try reflexivity.
  unfold Api.getErrorMessage.
  repeat match goal with
         | |- context [JsString.eqb ?a ?b] => destruct (JsString.eqb a b)
         end;
    try reflexivity; apply or_else_nonempty; reflexivity.
Qed.

(** X4: [getErrorMessage] never returns the empty string, whatever was
    thrown: every failure has a text to show. *)
Theorem X_getErrorMessage_nonempty (error : Api.Exn) :
  (0 < length (Api.getErrorMessage error))%nat /\
  Form.shown (Some (Api.getErrorMessage error)) = true.
Proof.
  pose proof (getErrorMessage_truthy error) as H. split; [|exact H].
  destruct (Api.getErrorMessage error); [discriminate H | simpl; lia].
Qed.

(** For a [WeatherAPIError] whose code is none of [UNKNOWN_CITY],
    [TIMEOUT] and [NETWORK_ERROR] and whose message is not empty,
    [getErrorMessage] is the error's own message; for each of those three
    codes it is a fixed text, whatever the error's message. *)
Lemma getErrorMessage_by_code (w : Api.WeatherAPIError.t) :
  (Api.WeatherAPIError.code w = lit "UNKNOWN_CITY" ->
   Api.getErrorMessage (Api.WeatherErr w)
   = lit "City not found. Please check the spelling and try again.") /\
  (Api.WeatherAPIError.code w = lit "TIMEOUT" ->
   Api.getErrorMessage (Api.WeatherErr w)
   = lit "Request timed out. Please try again.") /\
  (Api.WeatherAPIError.code w = lit "NETWORK_ERROR" ->
   Api.getErrorMessage (Api.WeatherErr w)
   = lit "Unable to connect. Please check your internet connection.") /\
  (Api.WeatherAPIError.code w <> lit "UNKNOWN_CITY" ->
   Api.WeatherAPIError.code w <> lit "TIMEOUT" ->
   Api.WeatherAPIError.code w <> lit "NETWORK_ERROR" ->
   truthy (Api.WeatherAPIError.message w) = true ->
   Api.getErrorMessage (Api.WeatherErr w) = Api.WeatherAPIError.message w).
Proof.
  unfold Api.getErrorMessage. repeat split.
  - intros ->. reflexivity.
  - intros ->. reflexivity.
  - intros ->. reflexivity.
  - intros H1 H2 H3 Hm.
    rewrite (eqb_neq _ _ H1), (eqb_neq _ _ H2), (eqb_neq _ _ H3).
    destruct (JsString.eqb _ _); apply or_else_truthy; exact Hm.
Qed.

(** ** The application component *)

(** The state a search leaves behind, whatever the state it started in. *)
Lemma handleWeatherSearch_run api_get (c : jsstring) (st : App.State) :
  App.run st (fst (App.handleWeatherSearch api_get c)) =
    match fst (Api.getWeather api_get c) with
    | Api.Fulfilled w =>
        {| App.weather := w; App.loading := false; App.error := None |}
    | Api.Rejected err =>
        {| App.weather := None; App.loading := false;
           App.error := Some (Api.getErrorMessage err) |}
    end.
Proof.
  unfold App.handleWeatherSearch.
  destruct (Api.getWeather api_get c) as [[w | err] sent]; reflexivity.
Qed.

(** X6: a search always ends with [loading] reset and with either the
    fetched value set as the weather and the error cleared, or the weather
    cleared and a non-empty error message set; nothing of the previous
    weather or error survives. *)
Theorem X_search_leaves_weather_or_error api_get (c : jsstring) (st : App.State) :
  let st' := App.run st (fst (App.handleWeatherSearch api_get c)) in
  App.loading st' = false /\
  ((exists w, fst (Api.getWeather api_get c) = Api.Fulfilled w /\
              App.weather st' = w /\ App.error st' = None) \/
   (exists err, fst (Api.getWeather api_get c) = Api.Rejected err /\
                App.weather st' = None /\
                App.error st' = Some (Api.getErrorMessage err) /\
                Form.shown (App.error st') = true)).
Proof.
  intros st'. subst st'. rewrite handleWeatherSearch_run.
  destruct (fst (Api.getWeather api_get c)) as [w | err]; simpl.
  - split; [reflexivity|]. left. exists w. repeat split.
  - split; [reflexivity|]. right. exists err. repeat split.
    apply getErrorMessage_truthy.
Qed.


(** X8: a search starts by raising [loading] and clearing the error; in
    the state it then waits in, neither the card nor the welcome panel is
    shown and the form drops every submit, so no second request can start
    from it. *)
Theorem X_view_while_loading api_get (c : jsstring) (st : App.State) :
  exists rest,
    fst (App.handleWeatherSearch api_get c)
    = App.SetLoading true :: App.SetError None :: rest /\
    let waiting := App.run st [App.SetLoading true; App.SetError None] in
    App.showCard waiting = false /\
    App.showWelcome waiting = false /\
    forall form,
      WeatherForm.handleSubmit (App.formProps waiting) form
      = [Form.PreventDefault] /\
      App.requests_of api_get
        (WeatherForm.handleSubmit (App.formProps waiting) form) = [].
Proof.
  unfold App.handleWeatherSearch.
  destruct (Api.getWeather api_get c) as [result sent].
  eexists. split; [reflexivity|].
  unfold App.showCard, App.showWelcome. simpl.
  split; [destruct (App.weather st); reflexivity|].
  split; [destruct (App.weather st); reflexivity|].
  intros form.
  assert (H : WeatherForm.handleSubmit
                (App.formProps
                   {| App.weather := App.weather st; App.loading := true;
                      App.error := None |}) form = [Form.PreventDefault]).
  { apply handleSubmit_guarded. simpl. apply orb_true_r. }
  rewrite H. split; reflexivity.
Qed.

(** X5: end to end, when the server answers with an error body of code
    [UNKNOWN_CITY] the user is shown the client's own "City not found"
    text, whatever message the body carried; for a body with another
    non-empty code, none of [TIMEOUT] and [NETWORK_ERROR], and a non-empty
    message, the user is shown the server's message as it is. *)
Theorem X_search_error_text
    api_get (c : jsstring) (st : App.State)
    (e : Api.AxiosError.t) (body : Api.ErrorResponse.t) (status : Z) :
  api_get (Api.weather_request c) = Api.Rejected (Api.AxiosErr e) ->
  Api.AxiosError.response e =
    Some {| Api.AxiosResponse.data := Some body;
            Api.AxiosResponse.status := status |} ->
  let st' := App.run st (fst (App.handleWeatherSearch api_get c)) in
  App.weather st' = None /\
  (Api.ErrorResponse.code body = Some (lit "UNKNOWN_CITY") ->
   App.error st'
   = Some (lit "City not found. Please check the spelling and try again.")) /\
  (forall code message,
     Api.ErrorResponse.code body = Some code ->
     Api.ErrorResponse.message body = Some message ->
     truthy code = true -> truthy message = true ->
     code <> lit "UNKNOWN_CITY" -> code <> lit "TIMEOUT" ->
     code <> lit "NETWORK_ERROR" ->
     App.error st' = Some message).
Proof.
  intros Hget Hresp st'. subst st'. rewrite handleWeatherSearch_run.
  rewrite (getWeather_rejected api_get c _ Hget). cbn [fst].
  assert (Hr : Api.on_rejected (Api.AxiosErr e) =
               Api.WeatherErr (Api.WeatherAPIError.new
                 (Api.or_else (Api.ErrorResponse.message body)
                    (lit "Failed to fetch weather data"))
                 (Api.or_else (Api.ErrorResponse.code body) (lit "UNKNOWN_ERROR"))
                 status (Api.ErrorResponse.details body))).
  { unfold Api.on_rejected. rewrite Hresp. reflexivity. }
  rewrite Hr. cbn [App.weather App.error].
  split; [reflexivity|]. split.
  - intros Hc. rewrite Hc. reflexivity.
  - intros code message Hcode Hmsg Hc Hm H1 H2 H3. rewrite Hcode, Hmsg.
    rewrite (or_else_truthy _ _ Hc), (or_else_truthy _ _ Hm). f_equal.
    exact (proj2 (proj2 (proj2 (getErrorMessage_by_code
             (Api.WeatherAPIError.new message code status
                (Api.ErrorResponse.details body))))) H1 H2 H3 Hm).
Qed.

Lemma X_search_error_text_witness :
  let body :=
    {| Api.ErrorResponse.code := Some (lit "UNKNOWN_CITY");
       Api.ErrorResponse.message := Some (lit "Invalid or unknown city: Atlantis");
       Api.ErrorResponse.details := Some [] |} in
  let e :=
    {| Api.AxiosError.message := lit "Request failed";
       Api.AxiosError.code := Some (lit "ERR_BAD_REQUEST");
       Api.AxiosError.response :=
         Some {| Api.AxiosResponse.data := Some body;
                 Api.AxiosResponse.status := 422 |} |} in
  App.error
    (App.run {| App.weather := None; App.loading := false; App.error := None |}
       (fst (App.handleWeatherSearch
               (fun _ => Api.Rejected (Api.AxiosErr e)) (lit "Atlantis"))))
  = Some (lit "City not found. Please check the spelling and try again.").
Proof.
  intros body e.
  exact (proj1 (proj2 (X_search_error_text
                  (fun _ => Api.Rejected (Api.AxiosErr e)) (lit "Atlantis")
                  {| App.weather := None; App.loading := false; App.error := None |}
                  e body 422%Z eq_refl eq_refl)) eq_refl).
Defined.

(** ** The weather card *)

Section Card.
Import WeatherCard.

Lemma startsWith_spec (p s : jsstring) :
  startsWith s p = true <-> exists r, s = p ++ r.
Proof.
  revert s. induction p as [|a p IH]; intros s; simpl.
  - split; [intros _; exists s; reflexivity | reflexivity].
  - destruct s as [|b s].
    + split; [discriminate | intros [r H]; discriminate H].
    + rewrite andb_true_iff, N.eqb_eq, IH. split.
      * intros [-> [r ->]]. exists r. reflexivity.
      * intros [r H]. injection H as -> ->. split; [reflexivity | exists r; reflexivity].
Qed.

(** [includes] finds a keyword exactly where it occurs as a substring. *)
Lemma includes_spec (s kw : jsstring) :
  includes s kw = true <-> exists l r, s = l ++ kw ++ r.
Proof.
  induction s as [|b s IH].
  - simpl. rewrite orb_false_r, startsWith_spec. split.
    + intros [r H]. exists [], r. exact H.
    + intros (l & r & H). destruct l as [|x l]; [|discriminate H].
      exists r. exact H.
  - cbn [includes]. rewrite orb_true_iff, startsWith_spec, IH. split.
    + intros [[r H] | (l & r & H)].
      * exists [], r. exact H.
      * exists (b :: l), r. simpl. rewrite H. reflexivity.
    + intros (l & r & H). destruct l as [|x l].
      * left. exists r. exact H.
      * right. injection H as _ H. exists l, r. exact H.
Qed.

Lemma Qfloor_unique (x : Q) (n : Z) :
  (inject_Z n <= x)%Q -> (x < inject_Z n + 1)%Q -> Qfloor x = n.
Proof.
  intros Hlo Hhi.
  pose proof (Qfloor_resp_le _ _ Hlo) as H1. rewrite Qfloor_Z in H1.
  assert (H2 : (Qfloor x < n + 1)%Z).
  { rewrite Zlt_Qlt, inject_Z_plus.
    apply Qle_lt_trans with (y := x); [apply Qfloor_le | exact Hhi]. }
  lia.
Qed.

End Card.

(** X17: the default icon is shown exactly for the conditions that mention
    none of the ten keywords. *)
Theorem X_icon_default_iff
    (toLowerCase : jsstring -> jsstring) (condition : jsstring) :
  WeatherCard.getWeatherIcon toLowerCase condition = WeatherCard.icon_default <->
  forallb (fun kw => negb (WeatherCard.includes (toLowerCase condition) (lit kw)))
    ["sunny"; "clear"; "cloud"; "rain"; "drizzle"; "snow"; "thunder"; "storm";
     "fog"; "mist"]%string = true.
Proof.
  unfold WeatherCard.getWeatherIcon. cbn [forallb].
  repeat match goal with
         | |- context [WeatherCard.includes ?s ?k] =>
             destruct (WeatherCard.includes s k)
         end;
    cbn; split; intros H; try reflexivity; try discriminate H.
Qed.

(** X18: for a temperature whose nearest integer [n], the upper one of
    two when it lies halfway, is below 2^53 in magnitude,
    [formatTemperature] shows the decimal digits of [n] followed by the
    degree sign and C. *)
Theorem X_formatTemperature_nearest (temp : Q) (n : Z) :
  (Z.abs n < 2 ^ 53)%Z ->
  (inject_Z n - (1 # 2) <= temp)%Q ->
  (temp < inject_Z n + (1 # 2))%Q ->
  WeatherCard.formatTemperature temp
  = Some (WeatherCard.decimal_digits n ++ [176%N; 67%N]).
Proof.
  intros Hb Hlo Hhi.
  unfold WeatherCard.formatTemperature, WeatherCard.Math_round,
    WeatherCard.Number_toString.
  rewrite (Qfloor_unique (temp + (1 # 2))%Q n); [| lra | lra].
  apply Z.ltb_lt in Hb. rewrite Hb. reflexivity.
Qed.

Lemma X_formatTemperature_witness :
  WeatherCard.formatTemperature (-5.5)%Q = Some (lit "-5" ++ [176%N; 67%N]) /\
  WeatherCard.formatTemperature 22.5%Q = Some (lit "23" ++ [176%N; 67%N]).
Proof.
  split.
  - apply (X_formatTemperature_nearest (-5.5)%Q (-5)%Z);
      [reflexivity | vm_compute; discriminate | reflexivity].
  - apply (X_formatTemperature_nearest 22.5%Q 23%Z);
      [reflexivity | vm_compute; discriminate | reflexivity].
Defined.

(** X19: for a wind speed that is not negative and below 10^21,
    [formatWindSpeed] shows the number of tenths [k] nearest to it, the
    upper one of two when the speed lies halfway: the decimal digits of
    [k / 10], a point, the digit [k mod 10], and " km/h". *)
Theorem X_formatWindSpeed_tenths (speed : Q) (k : Z) :
  (0 <= speed)%Q ->
  (speed < inject_Z (10 ^ 21))%Q ->
  (inject_Z k - (1 # 2) <= speed * 10)%Q ->
  (speed * 10 < inject_Z k + (1 # 2))%Q ->
  WeatherCard.formatWindSpeed speed
  = Some (WeatherCard.decimal_digits (k / 10)%Z ++ lit "."
          ++ WeatherCard.decimal_digits (k mod 10)%Z ++ lit " km/h") /\
  (0 <= k mod 10 <= 9)%Z.
Proof.
  intros Hpos Hb Hlo Hhi.
  unfold WeatherCard.formatWindSpeed, WeatherCard.toFixed1.
  apply Qle_bool_iff in Hpos. rewrite Hpos. cbn [negb].
  assert (Hsmall : Qle_bool (inject_Z (10 ^ 21)) speed = false).
  { destruct (Qle_bool (inject_Z (10 ^ 21)) speed) eqn:E; [|reflexivity].
    apply Qle_bool_iff in E. exfalso. apply (Qlt_not_le _ _ Hb). exact E. }
  rewrite Hsmall.
  rewrite (Qfloor_unique (speed * 10 + (1 # 2))%Q k); [| lra | lra].
  split.
  - cbn [app]. rewrite <- !app_assoc. reflexivity.
  - pose proof (Z.mod_pos_bound k 10). lia.
Qed.

Lemma X_formatWindSpeed_witness :
  WeatherCard.formatWindSpeed 12.7%Q = Some (lit "12.7 km/h") /\
  WeatherCard.formatWindSpeed 0%Q = Some (lit "0.0 km/h").
Proof.
  split.
  - apply (X_formatWindSpeed_tenths 12.7%Q 127%Z);
      [vm_compute; discriminate | reflexivity | vm_compute; discriminate
      | reflexivity].
  - apply (X_formatWindSpeed_tenths 0%Q 0%Z);
      [vm_compute; discriminate | reflexivity | vm_compute; discriminate
      | reflexivity].
Defined.
